(** * CI-Dashboard: KPI mappers

    A shallow embedding of [KpiMapper] (the abstract orchestrator) and of
    [BuildTimeFromQueueSegmentKpiMapper] (the moving-average build-time
    mapper), with the properties of the series-assembly pipeline.

    The TypeScript sources run on a JavaScript engine; the parts of the
    engine's behaviour the code depends on (property lookup on an array
    used as a dictionary, [for ... in] enumeration order, exceptions,
    in-place mutation of row objects) are written out below. *)

From Stdlib Require Import List String Ascii ZArith NArith QArith Lia Bool.
From Stdlib Require Import Permutation Sorted DecimalString DecimalPos DecimalZ.
Import ListNotations.
Close Scope Q_scope.
Open Scope string_scope.
Open Scope list_scope.


(** ** Exceptions *)

Inductive JsError : Type :=
| TypeError                 (* property access on undefined or null *)
| RangeError                (* Invalid array length *)
| Error (message : string). (* new Error(message), or what a collaborator throws *)

Inductive Outcome (A : Type) : Type :=
| Normal (a : A)
| Throw (e : JsError).

Arguments Normal {A} a.
Arguments Throw {A} e.

Definition bind {A B : Type} (m : Outcome A) (k : A -> Outcome B) : Outcome B :=
  match m with
  | Normal a => k a
  | Throw e => Throw e
  end.

Notation "x <- m ;; k" := (bind m (fun x => k))
  (at level 61, m at next level, right associativity).

(** ** Property keys

    A property key that is the canonical decimal form of an integer in
    [0, 2^32 - 2] is an array index; every other string is an ordinary
    name. *)

Definition digit (c : ascii) : option N :=
  let n := N_of_ascii c in
  if ((48 <=? n) && (n <=? 57))%N then Some (n - 48)%N else None.

Fixpoint digits (s : string) (acc : N) : option N :=
  match s with
  | EmptyString => Some acc
  | String c s' =>
      match digit c with
      | Some d => digits s' (10 * acc + d)%N
      | None => None
      end
  end.

Definition array_index (k : string) : option N :=
  match k with
  | EmptyString => None
  | String "0" EmptyString => Some 0%N
  | String "0" _ => None
  | _ =>
      match digits k 0 with
      | Some n => if (n <=? 4294967294)%N then Some n else None
      | None => None
      end
  end.

Definition is_array_index (k : string) : bool :=
  match array_index k with
  | Some _ => true
  | None => false
  end.

(** ** Rows and the heap

    A result row is a mutable object.  [DATE] and [AVG_BUILD_TIME] are the
    two columns every query selects; [GROUP] stands for the property named
    by [this.groupByColumn] (a column other than the former two).  [None]
    is an absent or null property.  Numbers are only stored, never computed
    with, so they are carried as rationals; a date is the millisecond
    time value of a [Date]. *)

Record Row : Type := mkRow {
  DATE : option Z;
  AVG_BUILD_TIME : option Q;
  GROUP : option string
}.

(** Row objects live in a heap and the arrays hold their addresses, so
    that two array slots may hold the same object. *)
Definition Heap : Type := nat -> Row.

Definition assign (h : Heap) (r : nat) (row : Row) : Heap :=
  fun r' => if Nat.eqb r' r then row else h r'.

Definition set_GROUP (row : Row) (g : string) : Row :=
  {| DATE := DATE row; AVG_BUILD_TIME := AVG_BUILD_TIME row; GROUP := Some g |}.

(** ** Plotly helpers *)

Module Plotly.

(** Modelled from the spec: [Plotly.GetTraceLineData] is not among the
    sources; the spec's TraceLine is a name, two parallel sequences and a
    line width, and the mapper pushes onto the [x] and [y] of what the
    helper returns. *)
Record TraceLine : Type := mkTraceLine {
  name : string;
  x : list (option Z);
  y : list (option Q);
  width : Z
}.

Definition GetTraceLineData (title : string) (xs : list (option Z))
    (ys : list (option Q)) (w : Z) : TraceLine :=
  {| name := title; x := xs; y := ys; width := w |}.

(** Modelled from the spec: the layout helpers ([GetLegendInfo],
    [GetDateXAxis], [GetYAxis], [GetShapesFromGoals]) are not among the
    sources; the spec's ChartPayload keeps the title, the axis bounds,
    the axis title and the two goal thresholds. *)
Record Layout : Type := mkLayout {
  title : string;
  showlegend : bool;
  xaxis : option string * option string;
  yaxis : string;
  shapes : Q * Q
}.

End Plotly.

Import Plotly.

(** ** An array used as a dictionary

    [var traceLines: any = []] is an array object that the mapper indexes
    with group names.  Its own properties are kept in creation order. *)

Definition TraceLines : Type := list (string * TraceLine).

Inductive JsValue : Type :=
| Undefined
| Number (n : N)
| Builtin                    (* a function or object found on the prototype chain *)
| Object (t : TraceLine).

Definition ToBoolean (v : JsValue) : bool :=
  match v with
  | Undefined => false
  | Number n => negb (n =? 0)%N
  | Builtin => true
  | Object _ => true
  end.

Fixpoint own (k : string) (o : TraceLines) : option TraceLine :=
  match o with
  | [] => None
  | (k', t) :: o' => if k' =? k then Some t else own k o'
  end.

(** The array's [length]: one more than its largest array index. *)
Fixpoint array_length (o : TraceLines) : N :=
  match o with
  | [] => 0%N
  | (k, _) :: o' =>
      match array_index k with
      | Some i => N.max (i + 1) (array_length o')
      | None => array_length o'
      end
  end.

Definition replace (k : string) (t : TraceLine) (o : TraceLines) : TraceLines :=
  map (fun e => if fst e =? k then (k, t) else e) o.

Section ArrayObject.

(** The names every array inherits from [Array.prototype] and
    [Object.prototype] ([constructor], [push], [toString], ...).  The set
    depends on the engine's version, so it is left open. *)
Variable inherited : string -> bool.

(** [o[k]] *)
Definition Get (o : TraceLines) (k : string) : JsValue :=
  match own k o with
  | Some t => Object t
  | None =>
      if k =? "length" then Number (array_length o)
      else if inherited k then Builtin
      else Undefined
  end.

(** [o[k] = t], for a trace line [t]: writing an object to [length]
    raises, writing to an own key overwrites, anything else creates the
    property. *)
Definition Put (o : TraceLines) (k : string) (t : TraceLine) : Outcome TraceLines :=
  if k =? "length" then Throw RangeError
  else
    match own k o with
    | Some _ => Normal (replace k t o)
    | None => Normal (o ++ [(k, t)])
    end.

(** [o[k].x.push(v)] and [o[k].y.push(v)]: only a trace line has an [x]
    and a [y]; on any other value the property read gives undefined and
    the call raises. *)
Definition push_x (o : TraceLines) (k : string) (v : option Z) : Outcome TraceLines :=
  match Get o k with
  | Object t =>
      Normal (replace k {| name := name t; x := x t ++ [v]; y := y t; width := width t |} o)
  | _ => Throw TypeError
  end.

Definition push_y (o : TraceLines) (k : string) (v : option Q) : Outcome TraceLines :=
  match Get o k with
  | Object t =>
      Normal (replace k {| name := name t; x := x t; y := y t ++ [v]; width := width t |} o)
  | _ => Throw TypeError
  end.

End ArrayObject.

(** [for (let k in o)]: the array indices in ascending numeric order, then
    the other names in creation order. *)
Fixpoint insert_index (i : N) (k : string) (l : list (N * string)) : list (N * string) :=
  match l with
  | [] => [(i, k)]
  | (j, k') :: l' =>
      if (i <? j)%N then (i, k) :: l else (j, k') :: insert_index i k l'
  end.

Fixpoint index_keys (ks : list string) (acc : list (N * string)) : list (N * string) :=
  match ks with
  | [] => acc
  | k :: ks' =>
      match array_index k with
      | Some i => index_keys ks' (insert_index i k acc)
      | None => index_keys ks' acc
      end
  end.

Definition enumeration_order (ks : list string) : list string :=
  map snd (index_keys ks []) ++ filter (fun k => negb (is_array_index k)) ks.

Definition for_in (o : TraceLines) : list string :=
  enumeration_order (map fst o).

(** ** Collaborators and configuration

    [config] (table name, date formats, goals), the period rule
    [SimpleMovingAveragePeriod.GetPeriod] and moment's [format] are not
    among the sources: they are parameters of the development. *)

Record Config : Type := mkConfig {
  qa_builds_and_runs_from_bamboo : string; (* config.db.tablename.* *)
  dateformat_charts : string;              (* config.dateformat.charts *)
  dateformat_mysql : string;               (* config.dateformat.mysql *)
  target_minutes : Q;                      (* config.kpi.goals.build_time_from_queue.* *)
  stretch_minutes : Q
}.

(** The returned chart state. *)
Record IKpiState : Type := mkKpiState {
  data : list JsValue;
  layout : Layout;
  frames : list JsValue;
  displayModeBar : bool
}.

(** The mapper object: the fields of [KpiMapper] and of
    [BuildTimeFromQueueSegmentKpiMapper].  The chart bounds are undefined
    until [GetKpiStateOrNull] sets them. *)
Record Mapper : Type := mkMapper {
  Title : string;
  chartFromDate : option string;
  chartToDate : option string;
  groupByColumn : string;
  filterColumn : string;
  filterValue : string
}.

Definition set_chart (this : Mapper) (from to : string) : Mapper :=
  {| Title := Title this;
     chartFromDate := Some from;
     chartToDate := Some to;
     groupByColumn := groupByColumn this;
     filterColumn := filterColumn this;
     filterValue := filterValue this |}.

Definition dquote : string := String (ascii_of_nat 34) EmptyString.

(** Decimal rendering of an integer inside a template literal. *)
Definition show (n : Z) : string := NilZero.string_of_int (Z.to_int n).

Module BuildTimeFromQueueSegmentKpiMapper.

Section Mapper.

Variable config : Config.
Variable GetPeriod : Z -> Z.
Variable inherited : string -> bool.

Definition _yAxisTitle : string := "Minutes (lower is better)".
Definition _targetGoal : Q := target_minutes config.
Definition _stretchGoal : Q := stretch_minutes config.

Definition getStartDateQuery : string :=
  concat "" ["SELECT MIN(BUILD_COMPLETED_DATE) AS 'DATE' FROM ";
             qa_builds_and_runs_from_bamboo config; ";"].

Definition getEndDateQuery : string :=
  concat "" ["SELECT MAX(BUILD_COMPLETED_DATE) AS 'DATE' FROM ";
             qa_builds_and_runs_from_bamboo config; ";"].

(** *** getQueryStrings

    The three local constants, then the two query texts (runs of white
    space in the template literals are written as one blank). *)

Definition movingAveragePeriod (dateRange : Z) : Z := GetPeriod dateRange.

Definition minPrevDayData (dateRange : Z) : Z :=
  Z.div (movingAveragePeriod dateRange) 2.       (* Math.floor(p / 2) *)

Definition nPrevDays (dateRange : Z) : Z :=
  movingAveragePeriod dateRange - 1.

Definition filterCondition (this : Mapper) : string :=
  if (filterColumn this =? "") || (filterValue this =? "") then ""
  else concat "" ["AND "; filterColumn this; " = "; filterValue this].

Definition dailyAvgBuildTimeSubquery (this : Mapper) (from to : string)
    (dateRange : Z) : string :=
  concat ""
    ["( SELECT BUILD_COMPLETED_DATE AS 'BUILD_DATE'";
     " ,AVG(MINUTES_TOTAL_QUEUE_AND_BUILD) AS 'AVG_BUILD_TIME'";
     " FROM "; qa_builds_and_runs_from_bamboo config;
     " WHERE (BUILD_COMPLETED_DATE BETWEEN DATE_SUB('"; from;
     "', INTERVAL "; show (nPrevDays dateRange); " DAY) AND '"; to; "') ";
     filterCondition this;
     " GROUP BY BUILD_DATE )"].

Definition dailyAvgBuildTimeGroupedSubquery (this : Mapper) (from to : string)
    (dateRange : Z) : string :=
  concat ""
    ["( SELECT BUILD_COMPLETED_DATE AS 'BUILD_DATE'";
     " ,AVG(MINUTES_TOTAL_QUEUE_AND_BUILD) AS 'AVG_BUILD_TIME'";
     " ,"; groupByColumn this;
     " FROM "; qa_builds_and_runs_from_bamboo config;
     " WHERE (BUILD_COMPLETED_DATE BETWEEN DATE_SUB('"; from;
     "', INTERVAL "; show (nPrevDays dateRange); " DAY) AND '"; to; "') ";
     filterCondition this;
     " GROUP BY BUILD_DATE, "; groupByColumn this; " )"].

Definition overallQuery (this : Mapper) (from to : string) (dateRange : Z) : string :=
  concat ""
    [" SELECT T1.BUILD_DATE AS 'DATE'";
     " ,AVG(T2.AVG_BUILD_TIME) AS 'AVG_BUILD_TIME'";
     " FROM "; dailyAvgBuildTimeSubquery this from to dateRange; " T1";
     " LEFT JOIN "; dailyAvgBuildTimeSubquery this from to dateRange; " T2";
     " ON T2.BUILD_DATE BETWEEN DATE_SUB(T1.BUILD_DATE, INTERVAL ";
     show (nPrevDays dateRange); " DAY) AND T1.BUILD_DATE";
     " WHERE T1.BUILD_DATE BETWEEN '"; from; "' AND '"; to; "'";
     " GROUP BY DATE ORDER BY DATE ASC "].

Definition groupedQuery (this : Mapper) (from to : string) (dateRange : Z) : string :=
  concat ""
    [" SELECT T1.BUILD_DATE AS 'DATE'";
     " ,CASE WHEN COUNT(T2.BUILD_DATE) < "; show (minPrevDayData dateRange);
     " THEN NULL ELSE AVG(T2.AVG_BUILD_TIME) END AS 'AVG_BUILD_TIME'";
     " ,T1."; groupByColumn this; " AS '"; groupByColumn this; "'";
     " FROM "; dailyAvgBuildTimeGroupedSubquery this from to dateRange; " T1";
     " LEFT JOIN "; dailyAvgBuildTimeGroupedSubquery this from to dateRange; " T2";
     " ON ( T2.BUILD_DATE BETWEEN DATE_SUB(T1.BUILD_DATE, INTERVAL ";
     show (nPrevDays dateRange); " DAY) AND T1.BUILD_DATE )";
     " AND ( T2."; groupByColumn this; " = T1."; groupByColumn this; " )";
     " WHERE T1.BUILD_DATE BETWEEN '"; from; "' AND '"; to; "'";
     " GROUP BY DATE, "; groupByColumn this;
     " ORDER BY "; groupByColumn this; " ASC, DATE ASC "].

Definition getQueryStrings (this : Mapper) (from to : string) (dateRange : Z)
    : list string :=
  [ overallQuery this from to dateRange;   (* Overall *)
    groupedQuery this from to dateRange ]. (* Segment split by this.groupByColumn *)

(** *** mapToKpiStateOrNull *)

(** [if (!result[g]) result[g] = "Overall"], then the value of
    [result[g]]: the row object itself is written to. *)
Definition resolveGroup (r : nat) (h : Heap) : Heap * string :=
  match GROUP (h r) with
  | Some g =>
      if g =? "" then (assign h r (set_GROUP (h r) "Overall"), "Overall")
      else (h, g)
  | None => (assign h r (set_GROUP (h r) "Overall"), "Overall")
  end.

(** The three statements on [traceLines] for one row: create the trace
    line when [traceLines[g]] is falsy, then push the date and the
    value. *)
Definition addPoint (g : string) (d : option Z) (v : option Q) (traceLines : TraceLines)
    : Outcome TraceLines :=
  t1 <- (if ToBoolean (Get inherited traceLines g) then Normal traceLines
         else Put traceLines g
                (GetTraceLineData g [] [] (if g =? "Overall" then 3%Z else 1%Z))) ;;
  t2 <- push_x inherited t1 g d ;;
  push_y inherited t2 g v.

(** The body of [for (let result of jsonArrays[i])]. *)
Definition mapResult (r : nat) (h : Heap) (traceLines : TraceLines)
    : Heap * Outcome TraceLines :=
  let '(h1, g) := resolveGroup r h in
  (h1, addPoint g (DATE (h1 r)) (AVG_BUILD_TIME (h1 r)) traceLines).

Fixpoint mapResults (results : list nat) (h : Heap) (traceLines : TraceLines)
    : Heap * Outcome TraceLines :=
  match results with
  | [] => (h, Normal traceLines)
  | r :: rest =>
      match mapResult r h traceLines with
      | (h1, Normal t1) => mapResults rest h1 t1
      | (h1, Throw e) => (h1, Throw e)
      end
  end.

(** [for (let i in jsonArrays)], with the per-array length check. *)
Fixpoint mapArrays (jsonArrays : list (list nat)) (h : Heap) (traceLines : TraceLines)
    : Heap * Outcome TraceLines :=
  match jsonArrays with
  | [] => (h, Normal traceLines)
  | results :: rest =>
      if (List.length results <? 2)%nat then mapArrays rest h traceLines
      else
        match mapResults results h traceLines with
        | (h1, Normal t1) => mapArrays rest h1 t1
        | (h1, Throw e) => (h1, Throw e)
        end
  end.

(** [for (let splitColumn in traceLines) data.push(traceLines[splitColumn])] *)
Definition collect (traceLines : TraceLines) : list JsValue :=
  map (Get inherited traceLines) (for_in traceLines).

Definition kpiState (this : Mapper) (d : list JsValue) : IKpiState :=
  {| data := d;
     layout := {| title := Title this;
                  showlegend := true;
                  xaxis := (chartFromDate this, chartToDate this);
                  yaxis := _yAxisTitle;
                  shapes := (_targetGoal, _stretchGoal) |};
     frames := [];
     displayModeBar := false |}.

(** The sufficiency test reads [jsonArrays[0].length] and, when that is
    at least 2, [jsonArrays[1].length]; reading [length] of a missing
    array raises.  [None] is the null result. *)
Definition mapToKpiStateOrNull (this : Mapper) (jsonArrays : list (list nat)) (h : Heap)
    : Heap * Outcome (option IKpiState) :=
  match jsonArrays with
  | [] => (h, Throw TypeError)
  | overall :: others =>
      if (List.length overall <? 2)%nat then (h, Normal None)
      else
        match others with
        | [] => (h, Throw TypeError)
        | grouped :: _ =>
            if (List.length grouped <? 6)%nat then (h, Normal None)
            else
              match mapArrays jsonArrays h [] with
              | (h1, Normal traceLines) =>
                  (h1, Normal (Some (kpiState this (collect traceLines))))
              | (h1, Throw e) => (h1, Throw e)
              end
        end
  end.

End Mapper.

End BuildTimeFromQueueSegmentKpiMapper.

(** ** moment

    A moment in UTC mode is a mutable object holding a millisecond time
    value.  Only [format] is left to the library. *)

Module moment.

Record Moment : Type := mkMoment { valueOf : Z }.

Definition utc (d : Z) : Moment := {| valueOf := d |}.

Definition msPerDay : Z := 86400000.

(** [m.subtract(n, "day")] moves the moment itself back by [n] UTC days;
    the call returns that same, mutated, object. *)
Definition subtract_days (m : Moment) (n : Z) : Moment :=
  {| valueOf := valueOf m - n * msPerDay |}.

(** [a.diff(b, "days")] truncates the difference towards zero. *)
Definition diff_days (a b : Moment) : Z :=
  Z.quot (valueOf a - valueOf b) msPerDay.

End moment.

(** ** KpiMapper *)

(** What the program does to the outside: lines printed with
    [console.log] and calls of [Log(err, context)]. *)
Record World : Type := mkWorld {
  console : list string;
  logged : list (JsError * string)
}.

Definition console_log (w : World) (line : string) : World :=
  {| console := console w ++ [line]; logged := logged w |}.

Definition Log (w : World) (err : JsError) (context : string) : World :=
  {| console := console w; logged := logged w ++ [(err, context)] |}.

(** Rows returned by a query are fresh objects: they are placed in the
    heap from the address [next] upwards. *)
Fixpoint alloc (rows : list Row) (h : Heap) (next : nat) : Heap * nat * list nat :=
  match rows with
  | [] => (h, next, [])
  | row :: rows' =>
      let '(h', next', refs) := alloc rows' (assign h next row) (S next) in
      (h', next', next :: refs)
  end.

Module KpiMapper.

Definition GetDateRange (from to : Z) : Z :=
  let fromDate := moment.utc from in
  let toDate := moment.utc to in
  moment.diff_days toDate fromDate + 1. (* +1 cause inclusive of "toDate" *)

Section Abstract.

Variable config : Config.
Variable format : moment.Moment -> string -> string.

(** [this.dataStorage.Query]: the rows, or the storage's exception. *)
Variable Query : string -> Outcome (list Row).

(** The abstract methods. *)
Variable getStartDateQuery : string.
Variable getEndDateQuery : string.
Variable getQueryStrings : Mapper -> string -> string -> Z -> list string.
Variable mapToKpiStateOrNull :
  Mapper -> list (list nat) -> Heap -> Heap * Outcome (option IKpiState).

(** The [try] block of [GetKpiStateOrNull]: one query after the other,
    then the mapping; an exception is rethrown as it is. *)
Fixpoint queryAll (sqls : list string) (jsonArrayResults : list (list nat))
    (h : Heap) (next : nat) : Heap * nat * Outcome (list (list nat)) :=
  match sqls with
  | [] => (h, next, Normal jsonArrayResults)
  | sql :: rest =>
      match Query sql with
      | Normal rows =>
          let '(h1, next1, refs) := alloc rows h next in
          queryAll rest (jsonArrayResults ++ [refs]) h1 next1
      | Throw err => (h, next, Throw err)
      end
  end.

Definition queryAndMap (this : Mapper) (sqls : list string) (h : Heap) (next : nat)
    : Heap * nat * Outcome (option IKpiState) :=
  match queryAll sqls [] h next with
  | (h1, next1, Normal jsonArrayResults) =>
      let '(h2, result) := mapToKpiStateOrNull this jsonArrayResults h1 in
      (h2, next1, result)
  | (h1, next1, Throw err) => (h1, next1, Throw err)
  end.

Definition GetKpiStateOrNull (this : Mapper) (from to : Z) (h : Heap) (next : nat)
    : Mapper * (Heap * nat * Outcome (option IKpiState)) :=
  let fromDate := moment.utc from in
  let toDate := moment.utc to in
  let this1 := set_chart this (format fromDate (dateformat_charts config))
                              (format toDate (dateformat_charts config)) in
  (* -2 day to fromDate to fix Plotly indentation issues: fromDate itself
     is moved, after the chart bound was taken from it *)
  let fromDate := moment.subtract_days fromDate 2 in
  let sqls := getQueryStrings this1
                (format fromDate (dateformat_mysql config))
                (format toDate (dateformat_mysql config))
                (GetDateRange from to) in
  (this1, queryAndMap this1 sqls h next).

(** [GetStartDate] and [GetEndDate].  A [DATE] that is present is a
    [Date] object, hence truthy; [new Date(d)] has the time value of
    [d].  The exception raised inside [try] is rethrown by [catch]. *)
Definition GetStartDate (this : Mapper) (w : World) : World * Outcome Z :=
  let query := getStartDateQuery in
  match Query query with
  | Throw err => (w, Throw err)
  | Normal results =>
      if negb (List.length results =? 1)%nat then
        let msg := concat "" ["kpi "; Title this;
                              ": start date query must return only 1 result."] in
        let w1 := console_log w (concat "" [msg; " Error has been logged."]) in
        let err := Error msg in
        let w2 := Log w1 err (concat "" ["query: "; query]) in
        (w2, Throw err)
      else
        match results with
        | [] => (w, Throw TypeError)
        | row :: _ =>
            match DATE row with
            | None =>
                let msg := concat "" ["kpi "; Title this;
                                      ": start date query must return a ";
                                      dquote; "DATE"; dquote; " column."] in
                let w1 := console_log w (concat "" [msg; " Error has been logged."]) in
                let err := Error msg in
                let w2 := Log w1 err (concat "" ["query: "; query]) in
                (w2, Throw err)
            | Some d => (w, Normal d) (* new Date(results[0].DATE) *)
            end
        end
  end.

Definition GetEndDate (this : Mapper) (w : World) : World * Outcome Z :=
  let query := getEndDateQuery in
  match Query query with
  | Throw err => (w, Throw err)
  | Normal results =>
      if negb (List.length results =? 1)%nat then
        let msg := concat "" ["kpi "; Title this;
                              ": end date query must return only 1 result."] in
        let w1 := console_log w (concat "" [msg; " Error has been logged."]) in
        let err := Error msg in
        let w2 := Log w1 err (concat "" ["query: "; query]) in
        (w2, Throw err)
      else
        match results with
        | [] => (w, Throw TypeError)
        | row :: _ =>
            match DATE row with
            | None =>
                let msg := concat "" ["kpi "; Title this;
                                      ": end date query must return a ";
                                      dquote; "DATE"; dquote; " column."] in
                let w1 := console_log w (concat "" [msg; " Error has been logged."]) in
                let err := Error msg in
                let w2 := Log w1 err (concat "" ["query: "; query]) in
                (w2, Throw err)
            | Some d => (w, Normal d) (* new Date(results[0].DATE) *)
            end
        end
  end.

End Abstract.

End KpiMapper.

(** ** Vocabulary of the properties *)

(** The group name a row resolves to. *)
Definition groupName (row : Row) : string :=
  match GROUP row with
  | Some g => if g =? "" then "Overall" else g
  | None => "Overall"
  end.

(** Each name once, at the place of its first occurrence. *)
Fixpoint first_sightings (l : list string) : list string :=
  match l with
  | [] => []
  | g :: l' => g :: filter (fun g' => negb (g' =? g)) (first_sightings l')
  end.

(** The rows of a group, in the order they were met, and the trace line
    they make. *)
Definition pointsOf (g : string) (rows : list Row) : list Row :=
  filter (fun row => groupName row =? g) rows.

Definition traceOf (g : string) (rows : list Row) : TraceLine :=
  {| name := g;
     x := map DATE (pointsOf g rows);
     y := map AVG_BUILD_TIME (pointsOf g rows);
     width := if g =? "Overall" then 3%Z else 1%Z |}.

(** The addresses visited by the two nested loops: the arrays of two or
    more rows, one after the other. *)
Definition processed (jsonArrays : list (list nat)) : list nat :=
  List.concat (filter (fun results => negb (List.length results <? 2)%nat) jsonArrays).

(** Names that are not free for use as a key of an array object. *)
Definition reserved (inherited : string -> bool) (g : string) : bool :=
  (g =? "length") || inherited g.

(** The array object holding, for each key of [ks], the value [f] gives. *)
Definition tabulate (f : string -> TraceLine) (ks : list string) : TraceLines :=
  map (fun k => (k, f k)) ks.

(** The numeric value of a key, for ordering. *)
Definition index_value (k : string) : N :=
  match array_index k with
  | Some i => i
  | None => 0%N
  end.

(** A heap [h'] reached from [h] by the mapper: dates and values are as
    they were, and a group field was either left alone or, where it was
    absent or empty, set to the literal Overall. *)
Definition groupDefaulted (row row' : Row) : Prop :=
  DATE row' = DATE row /\
  AVG_BUILD_TIME row' = AVG_BUILD_TIME row /\
  (GROUP row' = GROUP row \/
   ((GROUP row = None \/ GROUP row = Some "") /\ GROUP row' = Some "Overall")).

(** A row whose group name can be used as a key. *)
Definition free (inherited : string -> bool) (row : Row) : bool :=
  negb (reserved inherited (groupName row)).

(** [reached h0 h]: every row of [h] is the row of [h0], its group field
    defaulted or not. *)
Definition reached (h0 h : Heap) : Prop :=
  forall r, groupDefaulted (h0 r) (h r).

(** Orders on enumerated keys. *)
Definition by_index (p q : N * string) : Prop := (fst p <= fst q)%N.

Definition ascending (k k' : string) : Prop := (index_value k <= index_value k')%N.

Definition tagged (l : list (N * string)) : Prop :=
  Forall (fun p => array_index (snd p) = Some (fst p)) l.

(** The series the rows [rows] give: one trace line per name, in the
    enumeration order of the names. *)
Definition seriesOf (rows : list Row) : list JsValue :=
  map (fun g => Object (traceOf g rows))
      (enumeration_order (first_sightings (map groupName rows))).

Definition seriesName (v : JsValue) : string :=
  match v with
  | Object t => name t
  | _ => ""
  end.

(** The sufficiency test, as the spec words it. *)
Definition sufficient (overall grouped : list nat) : Prop :=
  (2 <= List.length overall)%nat /\ (6 <= List.length grouped)%nat.

(** A result of a date query that is not one row with a [DATE]. *)
Definition malformed (results : list Row) : Prop :=
  List.length results <> 1%nat \/ exists row, results = [row] /\ DATE row = None.

(** What is asked of [GetStartDate] and of [GetEndDate], for the query
    text [query] and the storage [Query]: a storage failure is passed on,
    nothing logged; on returned rows the call raises exactly when they are
    malformed, and then logs once, the raised error with the query; on one
    row with a date it returns that date and logs nothing. *)
Definition date_contract (Query : string -> Outcome (list Row)) (query : string)
    (get : Mapper -> World -> World * Outcome Z) : Prop :=
  forall (this : Mapper) (w : World),
    match Query query with
    | Throw e => get this w = (w, Throw e)
    | Normal results =>
        (malformed results <-> exists err, snd (get this w) = Throw err)
        /\ (malformed results ->
            exists err,
              snd (get this w) = Throw err
              /\ logged (fst (get this w))
                 = logged w ++ [(err, String.concat "" ["query: "; query])])
        /\ (forall row d,
              results = [row] -> DATE row = Some d -> get this w = (w, Normal d))
    end.

(** A concrete engine and concrete inputs for the examples. *)
Module Sample.

Definition prototypeNames : list string :=
  ["constructor"; "toString"; "toLocaleString"; "valueOf"; "hasOwnProperty";
   "isPrototypeOf"; "propertyIsEnumerable"; "__proto__";
   "concat"; "join"; "pop"; "push"; "reverse"; "shift"; "unshift"; "slice";
   "splice"; "sort"; "indexOf"; "lastIndexOf"; "every"; "some"; "forEach";
   "map"; "filter"; "reduce"; "reduceRight"].

Definition inherited (k : string) : bool := existsb (String.eqb k) prototypeNames.

Definition config : Config :=
  {| qa_builds_and_runs_from_bamboo := "QA_BUILDS_AND_RUNS_FROM_BAMBOO";
     dateformat_charts := "YYYY-MM-DD";
     dateformat_mysql := "YYYY-MM-DD";
     target_minutes := 45%Q;
     stretch_minutes := 30%Q |}.

Definition this : Mapper :=
  {| Title := "Build Time From Queue";
     chartFromDate := Some "2018-01-01";
     chartToDate := Some "2018-01-31";
     groupByColumn := "PLATFORM";
     filterColumn := "";
     filterValue := "" |}.

Definition row (d : Z) (v : option Q) (g : option string) : Row :=
  {| DATE := Some d; AVG_BUILD_TIME := v; GROUP := g |}.

Definition heapOf (rows : list Row) : Heap :=
  fun r => nth r rows (row 0 None None).

(** Two overall rows, then six grouped rows of the groups A and (empty),
    one of them with a suppressed value. *)
Definition heapA : Heap :=
  heapOf [row 1 (Some 5%Q) None; row 2 (Some 7%Q) None;
          row 1 (Some 4%Q) (Some "A"); row 2 None (Some "A");
          row 3 (Some 6%Q) (Some "A"); row 1 (Some 8%Q) (Some "");
          row 2 (Some 9%Q) (Some ""); row 3 (Some 9%Q) (Some "")].

(** Grouped rows sighted in the order B, 2, 1. *)
Definition heapNumeric : Heap :=
  heapOf [row 1 (Some 5%Q) None; row 2 (Some 7%Q) None;
          row 1 (Some 4%Q) (Some "B"); row 2 (Some 4%Q) (Some "B");
          row 1 (Some 6%Q) (Some "2"); row 2 (Some 6%Q) (Some "2");
          row 1 (Some 8%Q) (Some "1"); row 2 (Some 8%Q) (Some "1")].

(** Grouped rows of a group called length. *)
Definition heapLength : Heap :=
  heapOf [row 1 (Some 5%Q) None; row 2 (Some 7%Q) None;
          row 1 (Some 4%Q) (Some "length"); row 2 (Some 4%Q) (Some "length");
          row 3 (Some 6%Q) (Some "length"); row 4 (Some 6%Q) (Some "length");
          row 5 (Some 8%Q) (Some "length"); row 6 (Some 8%Q) (Some "length")].

Definition jsonArrays : list (list nat) := [[0; 1]; [2; 3; 4; 5; 6; 7]]%nat.

(** The series expected for [heapA] and for [heapNumeric]. *)
Definition dataA : list JsValue :=
  [Object {| name := "Overall";
             x := [Some 1%Z; Some 2%Z; Some 1%Z; Some 2%Z; Some 3%Z];
             y := [Some 5%Q; Some 7%Q; Some 8%Q; Some 9%Q; Some 9%Q];
             width := 3 |};
   Object {| name := "A";
             x := [Some 1%Z; Some 2%Z; Some 3%Z];
             y := [Some 4%Q; None; Some 6%Q];
             width := 1 |}].

Definition dataNumeric : list JsValue :=
  [Object {| name := "1"; x := [Some 1%Z; Some 2%Z];
             y := [Some 8%Q; Some 8%Q]; width := 1 |};
   Object {| name := "2"; x := [Some 1%Z; Some 2%Z];
             y := [Some 6%Q; Some 6%Q]; width := 1 |};
   Object {| name := "Overall"; x := [Some 1%Z; Some 2%Z];
             y := [Some 5%Q; Some 7%Q]; width := 3 |};
   Object {| name := "B"; x := [Some 1%Z; Some 2%Z];
             y := [Some 4%Q; Some 4%Q]; width := 1 |}].

End Sample.

(** The inner loop seen from the trace lines alone: one [addPoint] per
    row. *)
Fixpoint addPoints (inherited : string -> bool) (rows : list Row) (o : TraceLines)
    : Outcome TraceLines :=
  match rows with
  | [] => Normal o
  | row :: rest =>
      o1 <- BuildTimeFromQueueSegmentKpiMapper.addPoint inherited
              (groupName row) (DATE row) (AVG_BUILD_TIME row) o ;;
      addPoints inherited rest o1
  end.

(** The trace lines after the rows [rows] went through the loop. *)
Definition assembled (rows : list Row) : TraceLines :=
  tabulate (fun g => traceOf g rows) (first_sightings (map groupName rows)).

(** ** The concrete mapper as a whole

    [BuildTimeFromQueueSegmentKpiMapper] inherits [GetKpiStateOrNull],
    [GetStartDate] and [GetEndDate] from [KpiMapper] and supplies the
    abstract methods. *)

Definition BuildTime_GetKpiStateOrNull (config : Config) (GetPeriod : Z -> Z)
    (inherited : string -> bool) (format : moment.Moment -> string -> string)
    (Query : string -> Outcome (list Row))
    (this : Mapper) (from to : Z) (h : Heap) (next : nat)
    : Mapper * (Heap * nat * Outcome (option IKpiState)) :=
  KpiMapper.GetKpiStateOrNull config format Query
    (BuildTimeFromQueueSegmentKpiMapper.getQueryStrings config GetPeriod)
    (BuildTimeFromQueueSegmentKpiMapper.mapToKpiStateOrNull config inherited)
    this from to h next.

(** The mapper as [GetKpiStateOrNull] hands it on, the chart bounds set. *)
Definition charted (config : Config) (format : moment.Moment -> string -> string)
    (this : Mapper) (from to : Z) : Mapper :=
  set_chart this (format (moment.utc from) (dateformat_charts config))
                 (format (moment.utc to) (dateformat_charts config)).

(** The two query texts of a request. *)
Definition requestOverall (config : Config) (GetPeriod : Z -> Z)
    (format : moment.Moment -> string -> string) (this : Mapper) (from to : Z)
    : string :=
  BuildTimeFromQueueSegmentKpiMapper.overallQuery config GetPeriod
    (charted config format this from to)
    (format (moment.utc (from - 2 * moment.msPerDay)) (dateformat_mysql config))
    (format (moment.utc to) (dateformat_mysql config))
    (KpiMapper.GetDateRange from to).

Definition requestGrouped (config : Config) (GetPeriod : Z -> Z)
    (format : moment.Moment -> string -> string) (this : Mapper) (from to : Z)
    : string :=
  BuildTimeFromQueueSegmentKpiMapper.groupedQuery config GetPeriod
    (charted config format this from to)
    (format (moment.utc (from - 2 * moment.msPerDay)) (dateformat_mysql config))
    (format (moment.utc to) (dateformat_mysql config))
    (KpiMapper.GetDateRange from to).

(** The query texts [GetKpiStateOrNull] asks a concrete mapper for. *)
Definition requests (config : Config) (format : moment.Moment -> string -> string)
    (getQueryStrings : Mapper -> string -> string -> Z -> list string)
    (this : Mapper) (from to : Z) : list string :=
  getQueryStrings (charted config format this from to)
    (format (moment.utc (from - 2 * moment.msPerDay)) (dateformat_mysql config))
    (format (moment.utc to) (dateformat_mysql config))
    (KpiMapper.GetDateRange from to).

(** [fragment] occurs in [text]. *)
Definition occurs (fragment text : string) : Prop :=
  exists before after, text = (before ++ fragment ++ after)%string.

(** The number of points of a series list. *)
Definition pointCount (series : list JsValue) : nat :=
  list_sum (map (fun v => match v with
                          | Object t => List.length (x t)
                          | _ => 0%nat
                          end) series).

(** A mapper that filters nothing: one of the two filter fields is empty. *)
Definition unfiltered (this : Mapper) : bool :=
  (filterColumn this =? "") || (filterValue this =? "").

(** A storage for the examples: the overall query (recognised by how its
    text begins) gets two rows, any other query six. *)
Module SampleStorage.

Definition rowsOverall : list Row :=
  [Sample.row 1 (Some 5%Q) None; Sample.row 2 (Some 7%Q) None].

Definition rowsGrouped : list Row :=
  [Sample.row 1 (Some 4%Q) (Some "A"); Sample.row 2 None (Some "A");
   Sample.row 3 (Some 6%Q) (Some "A"); Sample.row 1 (Some 8%Q) (Some "");
   Sample.row 2 (Some 9%Q) (Some ""); Sample.row 3 (Some 9%Q) (Some "")].

Definition isOverall (sql : string) : bool :=
  String.prefix " SELECT T1.BUILD_DATE AS 'DATE' ,AVG(" sql.

Definition Query (sql : string) : Outcome (list Row) :=
  if isOverall sql then Normal rowsOverall else Normal rowsGrouped.

(** Only the overall query is answered; the other fails. *)
Definition QueryFailing (sql : string) : Outcome (list Row) :=
  if isOverall sql then Normal rowsOverall else Throw (Error "connection lost").

(** Too few grouped rows. *)
Definition QueryFew (sql : string) : Outcome (list Row) :=
  if isOverall sql then Normal rowsOverall else Normal rowsOverall.

(** Stands in for moment's [format]: the day number of the moment. *)
Definition format (m : moment.Moment) (fmt : string) : string :=
  show (Z.div (moment.valueOf m) moment.msPerDay).

Definition GetPeriod (dateRange : Z) : Z := 7.

Definition empty : Heap := fun _ => Sample.row 0 None None.

End SampleStorage.

(** * Properties *)

Import BuildTimeFromQueueSegmentKpiMapper.

(** ** Lists of names *)

Lemma existsb_eqb_In (g : string) (l : list string) :
  existsb (String.eqb g) l = true <-> In g l.
Proof.
  rewrite existsb_exists. split.
  - intros [k [Hin Heq]]. apply String.eqb_eq in Heq. now subst.
  - intros Hin. exists g. split; [assumption | apply String.eqb_refl].
Qed.

Lemma first_sightings_In (g : string) (l : list string) :
  In g (first_sightings l) <-> In g l.
Proof.
  induction l as [| a l IH]; simpl; [tauto |].
  rewrite filter_In, IH, negb_true_iff, String.eqb_neq.
  destruct (String.eqb_spec a g) as [-> | Hne]; [tauto |].
  split; [tauto |]. intros [H | H]; [tauto |]. right. split; congruence.
Qed.

Lemma first_sightings_NoDup (l : list string) : NoDup (first_sightings l).
Proof.
  induction l as [| a l IH]; simpl; constructor.
  - rewrite filter_In, String.eqb_refl. simpl. intros [_ H]. discriminate.
  - now apply NoDup_filter.
Qed.

Lemma first_sightings_snoc (l : list string) (g : string) :
  first_sightings (l ++ [g]) =
  if existsb (String.eqb g) l then first_sightings l else first_sightings l ++ [g].
Proof.
  induction l as [| a l IH]; simpl; [reflexivity |].
  rewrite IH.
  destruct (String.eqb_spec g a) as [-> | Hne]; simpl.
  - destruct (existsb (String.eqb a) l); [reflexivity |].
    rewrite filter_app. simpl. rewrite String.eqb_refl. simpl.
    now rewrite app_nil_r.
  - destruct (existsb (String.eqb g) l); [reflexivity |].
    rewrite filter_app. simpl.
    apply String.eqb_neq in Hne. rewrite Hne. reflexivity.
Qed.

(** ** The array object *)

Lemma own_tabulate (f : string -> TraceLine) (ks : list string) (g : string) :
  own g (tabulate f ks) = if existsb (String.eqb g) ks then Some (f g) else None.
Proof.
  induction ks as [| k ks IH]; simpl; [reflexivity |].
  rewrite (String.eqb_sym g k).
  destruct (String.eqb_spec k g) as [-> | Hne]; simpl; [reflexivity | exact IH].
Qed.

Lemma replace_tabulate (f : string -> TraceLine) (ks : list string)
    (g : string) (t : TraceLine) :
  replace g t (tabulate f ks) = tabulate (fun k => if k =? g then t else f k) ks.
Proof.
  unfold replace, tabulate. rewrite map_map. apply map_ext. intros k. simpl.
  destruct (String.eqb_spec k g) as [-> | Hne]; reflexivity.
Qed.

Lemma tabulate_ext (f f' : string -> TraceLine) (ks : list string) :
  (forall k, In k ks -> f k = f' k) -> tabulate f ks = tabulate f' ks.
Proof.
  intros H. unfold tabulate. apply map_ext_in. intros k Hk. now rewrite H.
Qed.

Lemma tabulate_snoc (f : string -> TraceLine) (ks : list string) (g : string) :
  tabulate f ks ++ [(g, f g)] = tabulate f (ks ++ [g]).
Proof. unfold tabulate. now rewrite map_app. Qed.

Lemma map_fst_tabulate (f : string -> TraceLine) (ks : list string) :
  map fst (tabulate f ks) = ks.
Proof.
  unfold tabulate. rewrite map_map. simpl. apply map_id.
Qed.

(** ** Trace lines of a group *)

Lemma traceOf_snoc (g : string) (rows : list Row) (row : Row) :
  traceOf g (rows ++ [row]) =
  if groupName row =? g then
    {| name := g;
       x := x (traceOf g rows) ++ [DATE row];
       y := y (traceOf g rows) ++ [AVG_BUILD_TIME row];
       width := width (traceOf g rows) |}
  else traceOf g rows.
Proof.
  unfold traceOf, pointsOf. rewrite filter_app. simpl.
  destruct (groupName row =? g); simpl.
  - now rewrite !map_app.
  - now rewrite app_nil_r.
Qed.

Lemma traceOf_unseen (g : string) (rows : list Row) :
  ~ In g (map groupName rows) -> pointsOf g rows = [].
Proof.
  intros H. unfold pointsOf.
  induction rows as [| row rows IH]; simpl in *; [reflexivity |].
  destruct (String.eqb_spec (groupName row) g) as [Heq | Hne]; [tauto |].
  apply IH. tauto.
Qed.

(** ** One row, then a run of rows *)

Section Assembly.

Variable inherited : string -> bool.

Lemma addPoints_app (rows1 rows2 : list Row) (o : TraceLines) :
  addPoints inherited (rows1 ++ rows2) o =
  o1 <- addPoints inherited rows1 o ;; addPoints inherited rows2 o1.
Proof.
  revert o. induction rows1 as [| row rows1 IH]; intros o; simpl; [reflexivity |].
  destruct (addPoint inherited (groupName row) (DATE row) (AVG_BUILD_TIME row) o);
    simpl; [apply IH | reflexivity].
Qed.

(** A reserved name that is not yet a key makes the row raise: either
    the creation of [length] fails, or the push finds no trace line. *)
Lemma addPoint_reserved (g : string) (d : option Z) (v : option Q) (o : TraceLines) :
  own g o = None -> reserved inherited g = true ->
  exists e, addPoint inherited g d v o = Throw e.
Proof.
  intros Hown Hres. unfold addPoint, Get, reserved in *. rewrite Hown.
  destruct (g =? "length") eqn:Hlen; simpl in *.
  - destruct (array_length o =? 0)%N eqn:Hz; simpl.
    + unfold Put. rewrite Hlen. simpl. eauto.
    + unfold push_x, Get. rewrite Hown, Hlen. simpl. eauto.
  - rewrite Hres. simpl. unfold push_x, Get. rewrite Hown, Hlen, Hres. simpl. eauto.
Qed.

(** A free name: the trace line is created at the end when the name is
    new, and in both cases receives the point. *)
Lemma addPoint_assembled (rows : list Row) (row : Row) :
  reserved inherited (groupName row) = false ->
  addPoint inherited (groupName row) (DATE row) (AVG_BUILD_TIME row) (assembled rows)
  = Normal (assembled (rows ++ [row])).
Proof.
  intros Hres. unfold reserved in Hres. apply orb_false_iff in Hres.
  destruct Hres as [Hlen Hinh].
  set (g := groupName row) in *.
  unfold assembled. rewrite map_app. simpl. fold g.
  rewrite first_sightings_snoc.
  set (ks := first_sightings (map groupName rows)).
  assert (Hex : existsb (String.eqb g) ks = existsb (String.eqb g) (map groupName rows)).
  { apply eq_true_iff_eq. rewrite !existsb_eqb_In. apply first_sightings_In. }
  unfold addPoint, Get. rewrite own_tabulate, Hex.
  destruct (existsb (String.eqb g) (map groupName rows)) eqn:Hseen; simpl.
  - (* the trace line exists *)
    unfold push_x, Get. rewrite own_tabulate, Hex. simpl.
    unfold push_y, Get. rewrite replace_tabulate, own_tabulate, Hex.
    rewrite String.eqb_refl. simpl. f_equal.
    rewrite replace_tabulate. apply tabulate_ext. intros k _.
    rewrite traceOf_snoc. fold g. rewrite (String.eqb_sym g k).
    destruct (String.eqb_spec k g) as [-> | Hne]; reflexivity.
  - (* first sighting *)
    rewrite Hlen, Hinh. simpl. unfold Put. rewrite Hlen, own_tabulate, Hex.
    simpl.
    assert (Hnew : ~ In g (map groupName rows)).
    { rewrite <- existsb_eqb_In. congruence. }
    assert (Hown : forall t,
               own g (tabulate (fun k => traceOf k rows) ks ++ [(g, t)]) = Some t).
    { intros t. clear - Hex Hseen.
      assert (Hks : existsb (String.eqb g) ks = false) by congruence.
      clear Hex Hseen. induction ks as [| k ks' IH]; simpl in *.
      - now rewrite String.eqb_refl.
      - apply orb_false_iff in Hks. destruct Hks as [Hk Hks].
        rewrite String.eqb_sym, Hk. now apply IH. }
    unfold push_x, Get. rewrite Hown. simpl.
    unfold push_y, Get.
    assert (Hrep : forall t t',
               replace g t' (tabulate (fun k => traceOf k rows) ks ++ [(g, t)])
               = tabulate (fun k => traceOf k rows) ks ++ [(g, t')]).
    { intros t t'. unfold replace. rewrite map_app. simpl.
      rewrite String.eqb_refl. f_equal.
      fold (replace g t' (tabulate (fun k => traceOf k rows) ks)).
      rewrite replace_tabulate. apply tabulate_ext. intros k Hk.
      destruct (String.eqb_spec k g) as [-> | Hne]; [| reflexivity].
      exfalso. apply Hnew. now apply first_sightings_In. }
    rewrite Hrep, Hown. simpl. rewrite Hrep. f_equal.
    rewrite <- tabulate_snoc. f_equal.
    + apply tabulate_ext. intros k Hk. rewrite traceOf_snoc. fold g.
      destruct (String.eqb_spec g k) as [<- | Hne]; [| reflexivity].
      exfalso. apply Hnew. now apply first_sightings_In.
    + rewrite traceOf_snoc. fold g. rewrite String.eqb_refl.
      unfold traceOf. rewrite (traceOf_unseen g rows Hnew). reflexivity.
Qed.

Lemma addPoints_free (rows : list Row) :
  forallb (free inherited) rows = true -> addPoints inherited rows [] = Normal (assembled rows).
Proof.
  induction rows as [| row rows IH] using rev_ind; intros Hfree; [reflexivity |].
  rewrite forallb_app in Hfree. simpl in Hfree.
  apply andb_true_iff in Hfree. destruct Hfree as [Hrows Hrow].
  rewrite andb_true_r in Hrow. unfold free in Hrow. apply negb_true_iff in Hrow.
  rewrite addPoints_app, (IH Hrows). simpl.
  now rewrite addPoint_assembled.
Qed.

Lemma addPoints_reserved (rows : list Row) :
  forallb (free inherited) rows = false -> exists e, addPoints inherited rows [] = Throw e.
Proof.
  induction rows as [| row rows IH] using rev_ind; intros Hfree; [discriminate |].
  rewrite forallb_app in Hfree. rewrite addPoints_app.
  destruct (forallb (free inherited) rows) eqn:Hrows.
  - simpl in Hfree. rewrite andb_true_r in Hfree.
    unfold free in Hfree. apply negb_false_iff in Hfree.
    rewrite (addPoints_free rows Hrows). simpl.
    destruct (addPoint_reserved (groupName row) (DATE row) (AVG_BUILD_TIME row)
                (assembled rows)) as [e He]; [| assumption |].
    + unfold assembled. rewrite own_tabulate.
      destruct (existsb (String.eqb (groupName row))
                  (first_sightings (map groupName rows))) eqn:Hex; [| reflexivity].
      exfalso. apply existsb_eqb_In, first_sightings_In, in_map_iff in Hex.
      destruct Hex as [row' [Hname Hin]].
      rewrite forallb_forall in Hrows. specialize (Hrows row' Hin).
      unfold free in Hrows. rewrite Hname, Hfree in Hrows. discriminate.
    + rewrite He. simpl. eauto.
  - destruct (IH eq_refl) as [e He]. rewrite He. simpl. eauto.
Qed.

End Assembly.

(** ** What the loops do to the rows *)

Lemma groupDefaulted_refl (row : Row) : groupDefaulted row row.
Proof. unfold groupDefaulted. tauto. Qed.

Lemma groupDefaulted_trans (a b c : Row) :
  groupDefaulted a b -> groupDefaulted b c -> groupDefaulted a c.
Proof.
  unfold groupDefaulted.
  intros [Hd1 [Hv1 Hg1]] [Hd2 [Hv2 Hg2]].
  repeat split; try congruence.
  destruct Hg2 as [Hg2 | [Hfalsy Hg2]].
  - rewrite Hg2. exact Hg1.
  - right. split; [| exact Hg2].
    destruct Hg1 as [Hg1 | [Hfalsy1 _]]; [now rewrite <- Hg1 | exact Hfalsy1].
Qed.

Lemma groupDefaulted_groupName (a b : Row) :
  groupDefaulted a b -> groupName b = groupName a.
Proof.
  unfold groupDefaulted, groupName.
  intros [_ [_ [Hg | [[Hfalsy | Hfalsy] Hg]]]]; rewrite Hg; [reflexivity | |];
    rewrite Hfalsy; reflexivity.
Qed.

Lemma resolveGroup_name (r : nat) (h : Heap) :
  snd (resolveGroup r h) = groupName (h r).
Proof.
  unfold resolveGroup, groupName.
  destruct (GROUP (h r)) as [g |]; [destruct (g =? "") |]; reflexivity.
Qed.

Lemma resolveGroup_heap (r : nat) (h : Heap) (r' : nat) :
  groupDefaulted (h r') (fst (resolveGroup r h) r').
Proof.
  unfold resolveGroup.
  destruct (GROUP (h r)) as [g |] eqn:Hg;
    [destruct (String.eqb_spec g "") as [-> | Hne] |]; simpl;
    try apply groupDefaulted_refl;
    unfold assign; destruct (Nat.eqb_spec r' r) as [-> | Hr];
    try apply groupDefaulted_refl;
    unfold groupDefaulted, set_GROUP; simpl; tauto.
Qed.

Lemma resolveGroup_frame (r : nat) (h : Heap) (r' : nat) :
  r' <> r -> fst (resolveGroup r h) r' = h r'.
Proof.
  intros Hr. unfold resolveGroup.
  destruct (GROUP (h r)) as [g |]; [destruct (g =? "") |]; simpl;
    try reflexivity; unfold assign;
    destruct (Nat.eqb_spec r' r); congruence.
Qed.

Section Loops.

Variable inherited : string -> bool.

(** [h0] is the heap the call started from. *)
Variable h0 : Heap.

Lemma mapResult_spec (r : nat) (h : Heap) (o : TraceLines) :
  reached h0 h ->
  snd (mapResult inherited r h o)
  = addPoint inherited (groupName (h0 r)) (DATE (h0 r)) (AVG_BUILD_TIME (h0 r)) o
  /\ reached h0 (fst (mapResult inherited r h o))
  /\ (forall r', r' <> r -> fst (mapResult inherited r h o) r' = h r').
Proof.
  intros Hreached. unfold mapResult.
  pose proof (resolveGroup_name r h) as Hname.
  pose proof (resolveGroup_heap r h) as Hheap.
  pose proof (resolveGroup_frame r h) as Hframe.
  destruct (resolveGroup r h) as [h1 g]. simpl in *.
  assert (Hreached1 : reached h0 h1).
  { intros r'. eapply groupDefaulted_trans; [apply Hreached | apply Hheap]. }
  split; [| split; [exact Hreached1 | exact Hframe]].
  destruct (Hreached1 r) as [Hd [Hv _]].
  rewrite Hd, Hv, Hname. f_equal.
  apply groupDefaulted_groupName, Hreached.
Qed.

Lemma mapResults_spec (results : list nat) :
  forall (h : Heap) (o : TraceLines),
  reached h0 h ->
  snd (mapResults inherited results h o) = addPoints inherited (map h0 results) o
  /\ reached h0 (fst (mapResults inherited results h o))
  /\ (forall r, ~ In r results -> fst (mapResults inherited results h o) r = h r).
Proof.
  induction results as [| r rest IH]; intros h o Hreached; simpl.
  - split; [reflexivity | split; [exact Hreached | reflexivity]].
  - destruct (mapResult_spec r h o Hreached) as [Hout [Hreached1 Hframe]].
    destruct (mapResult inherited r h o) as [h1 [o1 | e]]; simpl in *;
      rewrite <- Hout; simpl.
    + destruct (IH h1 o1 Hreached1) as [Hout' [Hreached' Hframe']].
      split; [first [assumption | reflexivity] | split; [assumption |]].
      intros r' Hr'. rewrite Hframe' by tauto. apply Hframe. intros ->. tauto.
    + split; [first [assumption | reflexivity] | split; [assumption |]].
      intros r' Hr'. apply Hframe. intros ->. tauto.
Qed.

Lemma mapArrays_spec (jsonArrays : list (list nat)) :
  forall (h : Heap) (o : TraceLines),
  reached h0 h ->
  snd (mapArrays inherited jsonArrays h o)
  = addPoints inherited (map h0 (processed jsonArrays)) o
  /\ reached h0 (fst (mapArrays inherited jsonArrays h o))
  /\ (forall r, ~ In r (processed jsonArrays) ->
      fst (mapArrays inherited jsonArrays h o) r = h r).
Proof.
  induction jsonArrays as [| results rest IH]; intros h o Hreached; simpl.
  - split; [reflexivity | split; [exact Hreached | reflexivity]].
  - unfold processed. simpl. fold (processed rest).
    destruct (List.length results <? 2)%nat eqn:Hshort; simpl.
    + apply IH, Hreached.
    + rewrite map_app, addPoints_app.
      destruct (mapResults_spec results h o Hreached) as [Hout [Hreached1 Hframe]].
      destruct (mapResults inherited results h o) as [h1 [o1 | e]]; simpl in *;
        rewrite <- Hout; simpl.
      * destruct (IH h1 o1 Hreached1) as [Hout' [Hreached' Hframe']].
        split; [first [assumption | reflexivity] | split; [assumption |]].
        intros r Hr. rewrite in_app_iff in Hr.
        rewrite Hframe' by tauto. apply Hframe. tauto.
      * split; [first [assumption | reflexivity] | split; [assumption |]].
        intros r Hr. rewrite in_app_iff in Hr. apply Hframe. tauto.
Qed.

End Loops.

(** ** Enumeration order *)

Lemma insert_index_perm (i : N) (k : string) (l : list (N * string)) :
  Permutation (insert_index i k l) ((i, k) :: l).
Proof.
  induction l as [| [j k'] l IH]; simpl; [reflexivity |].
  destruct (i <? j)%N; [reflexivity |].
  rewrite IH. apply perm_swap.
Qed.

Lemma insert_index_sorted (i : N) (k : string) (l : list (N * string)) :
  StronglySorted by_index l -> StronglySorted by_index (insert_index i k l).
Proof.
  induction l as [| [j k'] l IH]; intros Hs; simpl.
  - constructor; [constructor | constructor].
  - inversion Hs as [| p l' Hs' Hall]; subst.
    destruct (N.ltb_spec i j) as [Hlt | Hge].
    + constructor; [exact Hs |].
      constructor; [unfold by_index; simpl; lia |].
      eapply Forall_impl; [| exact Hall].
      intros q Hq. unfold by_index in *. simpl in *. lia.
    + constructor; [now apply IH |].
      rewrite (insert_index_perm i k l).
      constructor; [unfold by_index; simpl; lia | exact Hall].
Qed.

Lemma index_keys_sorted (ks : list string) :
  forall acc, StronglySorted by_index acc -> StronglySorted by_index (index_keys ks acc).
Proof.
  induction ks as [| k ks IH]; intros acc Hs; simpl; [exact Hs |].
  destruct (array_index k); apply IH; [now apply insert_index_sorted | exact Hs].
Qed.

Lemma index_keys_tagged (ks : list string) :
  forall acc, tagged acc -> tagged (index_keys ks acc).
Proof.
  induction ks as [| k ks IH]; intros acc Ht; simpl; [exact Ht |].
  destruct (array_index k) as [i |] eqn:Hi; apply IH; [| exact Ht].
  unfold tagged. rewrite (insert_index_perm i k acc).
  constructor; [exact Hi | exact Ht].
Qed.

Lemma index_keys_perm (ks : list string) :
  forall acc,
  Permutation (map snd (index_keys ks acc)) (filter is_array_index ks ++ map snd acc).
Proof.
  induction ks as [| k ks IH]; intros acc; simpl; [reflexivity |].
  unfold is_array_index at 1.
  destruct (array_index k) as [i |]; [| apply IH].
  rewrite IH, (insert_index_perm i k acc). simpl.
  symmetry. apply Permutation_middle.
Qed.

Lemma sorted_keys (l : list (N * string)) :
  tagged l -> StronglySorted by_index l -> StronglySorted ascending (map snd l).
Proof.
  intros Ht Hs. induction Hs as [| p l Hs IH Hall]; simpl; [constructor |].
  inversion Ht as [| p' l' Hp Ht']; subst.
  constructor; [now apply IH |].
  rewrite Forall_map. rewrite Forall_forall in *.
  intros q Hq. unfold ascending, index_value, by_index in *.
  rewrite Hp, (Ht' q Hq). now apply Hall.
Qed.

Lemma filter_split_perm (f : string -> bool) (l : list string) :
  Permutation (filter f l ++ filter (fun k => negb (f k)) l) l.
Proof.
  induction l as [| k l IH]; simpl; [reflexivity |].
  destruct (f k); simpl.
  - now constructor.
  - rewrite <- Permutation_middle. now constructor.
Qed.

Lemma enumeration_order_perm (ks : list string) :
  Permutation (enumeration_order ks) ks.
Proof.
  unfold enumeration_order.
  rewrite (index_keys_perm ks []). simpl. rewrite app_nil_r.
  apply filter_split_perm.
Qed.

Lemma enumeration_order_indices (ks : list string) :
  StronglySorted ascending (map snd (index_keys ks []))
  /\ Permutation (map snd (index_keys ks [])) (filter is_array_index ks).
Proof.
  split.
  - apply sorted_keys.
    + apply index_keys_tagged. constructor.
    + apply index_keys_sorted. constructor.
  - rewrite (index_keys_perm ks []). simpl. now rewrite app_nil_r.
Qed.

Lemma enumeration_order_names (ks : list string) :
  forallb (fun k => negb (is_array_index k)) ks = true -> enumeration_order ks = ks.
Proof.
  intros Hnone. unfold enumeration_order.
  assert (Hidx : forall acc, index_keys ks acc = acc).
  { induction ks as [| k ks IH]; intros acc; simpl in *; [reflexivity |].
    apply andb_true_iff in Hnone. destruct Hnone as [Hk Hks].
    unfold is_array_index in Hk.
    destruct (array_index k); [discriminate | now apply IH]. }
  rewrite Hidx. simpl. clear Hidx.
  induction ks as [| k ks IH]; simpl in *; [reflexivity |].
  apply andb_true_iff in Hnone. destruct Hnone as [Hk Hks].
  rewrite Hk. f_equal. now apply IH.
Qed.

(** ** The mapping as a whole *)

Section Mapping.

Variable config : Config.
Variable inherited : string -> bool.
Variable this : Mapper.

Lemma collect_assembled (rows : list Row) :
  collect inherited (assembled rows) = seriesOf rows.
Proof.
  unfold collect, for_in, seriesOf, assembled.
  rewrite map_fst_tabulate. apply map_ext_in. intros k Hk.
  unfold Get. rewrite own_tabulate.
  apply (Permutation_in _ (enumeration_order_perm _)) in Hk.
  apply existsb_eqb_In in Hk. now rewrite Hk.
Qed.

(** Past the sufficiency test the call is the two loops followed by the
    collection of the lines. *)
Lemma mapToKpiStateOrNull_sufficient (overall grouped : list nat)
    (rest : list (list nat)) (h : Heap) :
  sufficient overall grouped ->
  mapToKpiStateOrNull config inherited this (overall :: grouped :: rest) h
  = match mapArrays inherited (overall :: grouped :: rest) h [] with
    | (h1, Normal traceLines) =>
        (h1, Normal (Some (kpiState config this (collect inherited traceLines))))
    | (h1, Throw e) => (h1, Throw e)
    end.
Proof.
  intros [Ho Hg]. unfold mapToKpiStateOrNull.
  apply Nat.ltb_ge in Ho. apply Nat.ltb_ge in Hg. now rewrite Ho, Hg.
Qed.

(** Below it, the result is null and nothing was touched. *)
Lemma mapToKpiStateOrNull_insufficient (overall grouped : list nat)
    (rest : list (list nat)) (h : Heap) :
  ~ sufficient overall grouped ->
  mapToKpiStateOrNull config inherited this (overall :: grouped :: rest) h
  = (h, Normal None).
Proof.
  intros Hnot. unfold mapToKpiStateOrNull, sufficient in *.
  destruct (Nat.ltb_spec (List.length overall) 2); [reflexivity |].
  destruct (Nat.ltb_spec (List.length grouped) 6); [reflexivity |].
  exfalso. apply Hnot. lia.
Qed.

(** A payload comes from a sufficient input whose names are all free,
    and is the series of the processed rows. *)
Lemma mapToKpiStateOrNull_payload (jsonArrays : list (list nat)) (h : Heap)
    (p : IKpiState) :
  snd (mapToKpiStateOrNull config inherited this jsonArrays h) = Normal (Some p) ->
  (exists overall grouped rest,
      jsonArrays = overall :: grouped :: rest /\ sufficient overall grouped)
  /\ forallb (free inherited) (map h (processed jsonArrays)) = true
  /\ p = kpiState config this (seriesOf (map h (processed jsonArrays))).
Proof.
  intros Hp. unfold mapToKpiStateOrNull in Hp.
  destruct jsonArrays as [| overall [| grouped rest]]; try discriminate.
  { destruct (List.length overall <? 2)%nat; discriminate. }
  destruct (Nat.ltb_spec (List.length overall) 2) as [| Ho]; [discriminate |].
  destruct (Nat.ltb_spec (List.length grouped) 6) as [| Hg]; [discriminate |].
  split; [exists overall, grouped, rest; unfold sufficient; auto |].
  destruct (mapArrays_spec inherited h (overall :: grouped :: rest) h []
              (fun r => groupDefaulted_refl (h r))) as [Hout _].
  destruct (mapArrays inherited (overall :: grouped :: rest) h [])
    as [h1 [traceLines | e]]; simpl in *; [| discriminate].
  destruct (forallb (free inherited) (map h (processed (overall :: grouped :: rest))))
    eqn:Hfree.
  - split; [reflexivity |].
    rewrite (addPoints_free inherited _ Hfree) in Hout.
    injection Hout as ->. injection Hp as <-.
    now rewrite collect_assembled.
  - destruct (addPoints_reserved inherited _ Hfree) as [e He].
    rewrite He in Hout. discriminate.
Qed.

(** Conversely, a sufficient input whose names are all free gives the
    payload. *)
Lemma mapToKpiStateOrNull_returns (overall grouped : list nat)
    (rest : list (list nat)) (h : Heap) :
  sufficient overall grouped ->
  forallb (free inherited) (map h (processed (overall :: grouped :: rest))) = true ->
  snd (mapToKpiStateOrNull config inherited this (overall :: grouped :: rest) h)
  = Normal (Some (kpiState config this
                    (seriesOf (map h (processed (overall :: grouped :: rest)))))).
Proof.
  intros Hs Hfree. rewrite (mapToKpiStateOrNull_sufficient _ _ _ _ Hs).
  destruct (mapArrays_spec inherited h (overall :: grouped :: rest) h []
              (fun r => groupDefaulted_refl (h r))) as [Hout _].
  rewrite (addPoints_free inherited _ Hfree) in Hout.
  destruct (mapArrays inherited (overall :: grouped :: rest) h [])
    as [h1 [traceLines | e]]; simpl in *; [| discriminate].
  injection Hout as ->. now rewrite collect_assembled.
Qed.

End Mapping.

(** ** The samples, evaluated *)

Lemma heapA_payload :
  snd (mapToKpiStateOrNull Sample.config Sample.inherited Sample.this
         Sample.jsonArrays Sample.heapA)
  = Normal (Some (kpiState Sample.config Sample.this Sample.dataA)).
Proof. vm_compute. reflexivity. Qed.

Lemma heapNumeric_payload :
  snd (mapToKpiStateOrNull Sample.config Sample.inherited Sample.this
         Sample.jsonArrays Sample.heapNumeric)
  = Normal (Some (kpiState Sample.config Sample.this Sample.dataNumeric)).
Proof. vm_compute. reflexivity. Qed.

(** ** The sufficiency test (C1) *)

(** A reserved group name among the processed rows makes a sufficient
    input raise instead of returning. *)
Lemma mapToKpiStateOrNull_reserved (config : Config) (inherited : string -> bool)
    (this : Mapper) (overall grouped : list nat) (rest : list (list nat)) (h : Heap) :
  sufficient overall grouped ->
  forallb (free inherited) (map h (processed (overall :: grouped :: rest))) = false ->
  exists e,
    snd (mapToKpiStateOrNull config inherited this (overall :: grouped :: rest) h)
    = Throw e.
Proof.
  intros Hs Hfree. rewrite (mapToKpiStateOrNull_sufficient _ _ _ _ _ _ _ Hs).
  destruct (mapArrays_spec inherited h (overall :: grouped :: rest) h []
              (fun r => groupDefaulted_refl (h r))) as [Hout _].
  destruct (addPoints_reserved inherited _ Hfree) as [e He].
  rewrite He in Hout.
  destruct (mapArrays inherited (overall :: grouped :: rest) h [])
    as [h1 [traceLines | e']]; simpl in *; [discriminate |].
  exists e'. reflexivity.
Qed.

(** C1.  The claim: the result is null when the overall array has fewer
    than 2 rows or the grouped array fewer than 6, and a payload
    otherwise.  The first half holds ([mapToKpiStateOrNull_insufficient]);
    the second does not: on two overall rows and six grouped rows of a
    group called length the input is sufficient, yet the call raises --
    [RangeError] on the sample engine, and some exception on every
    engine, since [length] is a property of every array. *)
Theorem mapToKpiStateOrNull_group_length_raises :
  sufficient [0; 1]%nat [2; 3; 4; 5; 6; 7]%nat
  /\ snd (mapToKpiStateOrNull Sample.config Sample.inherited Sample.this
            Sample.jsonArrays Sample.heapLength) = Throw RangeError
  /\ forall inherited,
       exists e, snd (mapToKpiStateOrNull Sample.config inherited Sample.this
                        Sample.jsonArrays Sample.heapLength) = Throw e.
Proof.
  assert (Hs : sufficient [0; 1]%nat [2; 3; 4; 5; 6; 7]%nat).
  { unfold sufficient. simpl. lia. }
  split; [exact Hs |]. split; [vm_compute; reflexivity |].
  intros inherited. apply mapToKpiStateOrNull_reserved; [exact Hs |].
  cbn. unfold free, reserved. cbn.
  now rewrite !andb_false_r.
Qed.

(** ** One trace line per group (C2) *)

Lemma seriesOf_lines (rows : list Row) :
  seriesOf rows
  = map Object (map (fun g => traceOf g rows)
                    (enumeration_order (first_sightings (map groupName rows)))).
Proof. unfold seriesOf. now rewrite map_map. Qed.

Lemma names_of_lines (rows : list Row) (ks : list string) :
  map name (map (fun g => traceOf g rows) ks) = ks.
Proof. rewrite map_map. simpl. apply map_id. Qed.

Lemma processed_names (jsonArrays : list (list nat)) (h : Heap) (g : string) :
  In g (map groupName (map h (processed jsonArrays))) <->
  exists r, In r (processed jsonArrays) /\ groupName (h r) = g.
Proof.
  rewrite map_map, in_map_iff. split; intros [r Hr]; exists r; tauto.
Qed.

(** C2.  In a returned payload the series are trace lines with pairwise
    distinct names; the names are exactly the group names the processed
    rows resolve to, where an absent or empty group field resolves to
    Overall and any other to its literal value (which is what the loop
    body computes); the line called Overall has width 3 and any other
    width 1. *)
Theorem series_one_line_per_group (config : Config) (inherited : string -> bool)
    (this : Mapper) (jsonArrays : list (list nat)) (h : Heap) (p : IKpiState) :
  snd (mapToKpiStateOrNull config inherited this jsonArrays h) = Normal (Some p) ->
  (exists lines : list TraceLine,
      data p = map Object lines
      /\ NoDup (map name lines)
      /\ (forall g, In g (map name lines) <->
                    exists r, In r (processed jsonArrays) /\ groupName (h r) = g)
      /\ (forall t, In t lines ->
                    width t = if name t =? "Overall" then 3%Z else 1%Z))
  /\ (forall row, (GROUP row = None \/ GROUP row = Some "" -> groupName row = "Overall")
                  /\ (forall g, GROUP row = Some g -> g <> "" -> groupName row = g))
  /\ (forall r h', snd (resolveGroup r h') = groupName (h' r)).
Proof.
  intros Hp. apply mapToKpiStateOrNull_payload in Hp.
  destruct Hp as [_ [_ ->]]. simpl.
  split; [| split].
  - set (rows := map h (processed jsonArrays)).
    exists (map (fun g => traceOf g rows)
                (enumeration_order (first_sightings (map groupName rows)))).
    rewrite names_of_lines.
    split; [apply seriesOf_lines |]. split; [| split].
    + eapply Permutation_NoDup;
        [symmetry; apply enumeration_order_perm | apply first_sightings_NoDup].
    + intros g. rewrite <- processed_names. fold rows.
      split; intros Hg.
      * apply first_sightings_In.
        eapply Permutation_in; [apply enumeration_order_perm | exact Hg].
      * eapply Permutation_in; [symmetry; apply enumeration_order_perm |].
        now apply first_sightings_In.
    + intros t Ht. apply in_map_iff in Ht. destruct Ht as [g [<- _]]. reflexivity.
  - intros row. unfold groupName. split.
    + intros [Hg | Hg]; now rewrite Hg.
    + intros g Hg Hne. rewrite Hg. apply String.eqb_neq in Hne. now rewrite Hne.
  - intros r h'. apply resolveGroup_name.
Qed.

(** The spec's example: overall rows (d1, 5) and (d2, 7), six grouped rows
    of the groups A and (empty). *)
Lemma series_one_line_per_group_example :
  exists p,
    snd (mapToKpiStateOrNull Sample.config Sample.inherited Sample.this
           Sample.jsonArrays Sample.heapA) = Normal (Some p)
    /\ map seriesName (data p) = ["Overall"; "A"]
    /\ exists lines : list TraceLine,
         data p = map Object lines
         /\ NoDup (map name lines)
         /\ (forall g, In g (map name lines) <->
                       exists r, In r (processed Sample.jsonArrays)
                                 /\ groupName (Sample.heapA r) = g)
         /\ (forall t, In t lines ->
                       width t = if name t =? "Overall" then 3%Z else 1%Z).
Proof.
  exists (kpiState Sample.config Sample.this Sample.dataA).
  split; [exact heapA_payload |]. split; [reflexivity |].
  exact (proj1 (series_one_line_per_group Sample.config Sample.inherited Sample.this
                  Sample.jsonArrays Sample.heapA _ heapA_payload)).
Defined.

(** ** Order of the series (C3) *)

Lemma seriesName_seriesOf (rows : list Row) :
  map seriesName (seriesOf rows)
  = enumeration_order (first_sightings (map groupName rows)).
Proof. unfold seriesOf. rewrite map_map. simpl. apply map_id. Qed.

(** C3, as claimed: the series are in first-sighting order, whatever the
    names.  With grouped rows sighted in the order B, 2, 1 the series come
    out as 1, 2, Overall, B. *)
Lemma series_order_numeric_names :
  exists p,
    snd (mapToKpiStateOrNull Sample.config Sample.inherited Sample.this
           Sample.jsonArrays Sample.heapNumeric) = Normal (Some p)
    /\ map seriesName (data p) = ["1"; "2"; "Overall"; "B"]
    /\ first_sightings
         (map groupName (map Sample.heapNumeric (processed Sample.jsonArrays)))
       = ["Overall"; "B"; "2"; "1"]
    /\ map seriesName (data p)
       <> first_sightings
            (map groupName (map Sample.heapNumeric (processed Sample.jsonArrays))).
Proof.
  exists (kpiState Sample.config Sample.this Sample.dataNumeric).
  split; [exact heapNumeric_payload |].
  split; [reflexivity |]. split; [vm_compute; reflexivity |].
  vm_compute. discriminate.
Qed.

(** C3, amended.  In a returned payload the series come in the order
    [for ... in] enumerates the keys of the array they were stored in:
    first the names that are array indices, in ascending numeric order,
    then all other names in first-sighting order.  When no name is an
    array index this is first-sighting order. *)
Theorem series_order (config : Config) (inherited : string -> bool)
    (this : Mapper) (jsonArrays : list (list nat)) (h : Heap) (p : IKpiState) :
  snd (mapToKpiStateOrNull config inherited this jsonArrays h) = Normal (Some p) ->
  let sightings := first_sightings (map groupName (map h (processed jsonArrays))) in
  (exists indices,
      map seriesName (data p)
      = indices ++ filter (fun g => negb (is_array_index g)) sightings
      /\ Permutation indices (filter is_array_index sightings)
      /\ StronglySorted ascending indices)
  /\ (forallb (fun g => negb (is_array_index g)) sightings = true ->
      map seriesName (data p) = sightings).
Proof.
  intros Hp sightings. apply mapToKpiStateOrNull_payload in Hp.
  destruct Hp as [_ [_ ->]]. simpl. rewrite seriesName_seriesOf. fold sightings.
  split.
  - exists (map snd (index_keys sightings [])).
    destruct (enumeration_order_indices sightings) as [Hsorted Hperm].
    split; [reflexivity |]. split; assumption.
  - apply enumeration_order_names.
Qed.

Lemma series_order_example :
  exists p,
    snd (mapToKpiStateOrNull Sample.config Sample.inherited Sample.this
           Sample.jsonArrays Sample.heapA) = Normal (Some p)
    /\ map seriesName (data p)
       = first_sightings (map groupName (map Sample.heapA (processed Sample.jsonArrays))).
Proof.
  exists (kpiState Sample.config Sample.this Sample.dataA).
  split; [exact heapA_payload |].
  apply (proj2 (series_order Sample.config Sample.inherited Sample.this
                  Sample.jsonArrays Sample.heapA _ heapA_payload)).
  vm_compute. reflexivity.
Defined.

(** ** The rows after the call (C4) *)

Lemma Row_ext (a b : Row) :
  DATE a = DATE b -> AVG_BUILD_TIME a = AVG_BUILD_TIME b -> GROUP a = GROUP b -> a = b.
Proof. destruct a, b. simpl. intros -> -> ->. reflexivity. Qed.

Lemma mapToKpiStateOrNull_heap (config : Config) (inherited : string -> bool)
    (this : Mapper) (jsonArrays : list (list nat)) (h : Heap) :
  reached h (fst (mapToKpiStateOrNull config inherited this jsonArrays h))
  /\ (forall r, ~ In r (processed jsonArrays) ->
      fst (mapToKpiStateOrNull config inherited this jsonArrays h) r = h r).
Proof.
  assert (Hrefl : reached h h) by (intros r; apply groupDefaulted_refl).
  destruct jsonArrays as [| overall [| grouped rest]].
  - split; [exact Hrefl | reflexivity].
  - unfold mapToKpiStateOrNull.
    destruct (List.length overall <? 2)%nat; split; (exact Hrefl || reflexivity).
  - assert (Hcase : sufficient overall grouped \/ ~ sufficient overall grouped)
      by (unfold sufficient; lia).
    destruct Hcase as [Hs | Hn].
    + rewrite (mapToKpiStateOrNull_sufficient _ _ _ _ _ _ _ Hs).
      destruct (mapArrays_spec inherited h (overall :: grouped :: rest) h [] Hrefl)
        as [_ [Hreached Hframe]].
      destruct (mapArrays inherited (overall :: grouped :: rest) h [])
        as [h1 [traceLines | e]]; cbn [fst] in *; split; assumption.
    + rewrite (mapToKpiStateOrNull_insufficient _ _ _ _ _ _ _ Hn).
      split; [exact Hrefl | reflexivity].
Qed.

(** C4, as claimed: no row is changed.  On the spec's example the first
    overall row had no group field and has one, Overall, after the call. *)
Lemma mapToKpiStateOrNull_writes_group :
  GROUP (Sample.heapA 0%nat) = None
  /\ GROUP (fst (mapToKpiStateOrNull Sample.config Sample.inherited Sample.this
                   Sample.jsonArrays Sample.heapA) 0%nat) = Some "Overall"
  /\ fst (mapToKpiStateOrNull Sample.config Sample.inherited Sample.this
            Sample.jsonArrays Sample.heapA) 0%nat
     <> Sample.heapA 0%nat.
Proof.
  split; [reflexivity |]. split; [vm_compute; reflexivity |].
  intros Heq. apply (f_equal GROUP) in Heq. vm_compute in Heq. discriminate.
Qed.

(** C4, amended.  After the call every row object has the [DATE] and the
    [AVG_BUILD_TIME] it had; its group field is either as it was or, where
    it was absent or empty, now holds Overall.  A row with a non-empty
    group, a row outside the arrays of two or more rows, and every row
    when the result is null, is unchanged. *)
Theorem mapToKpiStateOrNull_rows (config : Config) (inherited : string -> bool)
    (this : Mapper) (jsonArrays : list (list nat)) (h : Heap) (r : nat) :
  let h' := fst (mapToKpiStateOrNull config inherited this jsonArrays h) in
  groupDefaulted (h r) (h' r)
  /\ (forall g, GROUP (h r) = Some g -> g <> "" -> h' r = h r)
  /\ (~ In r (processed jsonArrays) -> h' r = h r)
  /\ (snd (mapToKpiStateOrNull config inherited this jsonArrays h) = Normal None ->
      h' r = h r).
Proof.
  intros h'.
  destruct (mapToKpiStateOrNull_heap config inherited this jsonArrays h)
    as [Hreached Hframe].
  fold h' in Hreached, Hframe.
  split; [apply Hreached |]. split; [| split].
  - intros g Hg Hne. destruct (Hreached r) as [Hd [Hv [Hsame | [[Hf | Hf] _]]]].
    + now apply Row_ext.
    + congruence.
    + rewrite Hg in Hf. congruence.
  - apply Hframe.
  - subst h'.
    destruct jsonArrays as [| overall [| grouped rest]]; [reflexivity | |].
    { unfold mapToKpiStateOrNull.
      destruct (List.length overall <? 2)%nat; reflexivity. }
    assert (Hcase : sufficient overall grouped \/ ~ sufficient overall grouped)
      by (unfold sufficient; lia).
    destruct Hcase as [Hs | Hn].
    + rewrite (mapToKpiStateOrNull_sufficient _ _ _ _ _ _ _ Hs).
      destruct (mapArrays inherited (overall :: grouped :: rest) h [])
        as [h1 [traceLines | e]]; cbn [snd]; discriminate.
    + now rewrite (mapToKpiStateOrNull_insufficient _ _ _ _ _ _ _ Hn).
Qed.

Lemma mapToKpiStateOrNull_rows_example :
  fst (mapToKpiStateOrNull Sample.config Sample.inherited Sample.this
         Sample.jsonArrays Sample.heapA) 2%nat = Sample.heapA 2%nat.
Proof.
  apply (proj1 (proj2 (mapToKpiStateOrNull_rows Sample.config Sample.inherited
                         Sample.this Sample.jsonArrays Sample.heapA 2%nat)) "A").
  - reflexivity.
  - discriminate.
Defined.

(** ** Points of a line (C8) *)

Lemma seriesOf_In (rows : list Row) (t : TraceLine) :
  In (Object t) (seriesOf rows) ->
  t = traceOf (name t) rows /\ In (name t) (map groupName rows).
Proof.
  unfold seriesOf. rewrite in_map_iff. intros [g [Heq Hin]].
  injection Heq as <-. simpl. split; [reflexivity |].
  apply first_sightings_In.
  eapply Permutation_in; [apply enumeration_order_perm | exact Hin].
Qed.

Lemma In_seriesOf (rows : list Row) (g : string) :
  In g (map groupName rows) -> In (Object (traceOf g rows)) (seriesOf rows).
Proof.
  intros Hg. unfold seriesOf.
  apply (in_map (fun g => Object (traceOf g rows))).
  eapply Permutation_in; [symmetry; apply enumeration_order_perm |].
  now apply first_sightings_In.
Qed.

(** C8.  In a returned payload, the y-values of a trace line are the
    [AVG_BUILD_TIME] fields of the processed rows of its group, one per
    row and in the order the rows were met, a null field giving a null
    point; the x-values are the [DATE] fields of the same rows; so both
    sequences have the same length. *)
Theorem null_points_kept (config : Config) (inherited : string -> bool)
    (this : Mapper) (jsonArrays : list (list nat)) (h : Heap) (p : IKpiState) :
  snd (mapToKpiStateOrNull config inherited this jsonArrays h) = Normal (Some p) ->
  forall t, In (Object t) (data p) ->
    let rows := pointsOf (name t) (map h (processed jsonArrays)) in
    y t = map AVG_BUILD_TIME rows
    /\ x t = map DATE rows
    /\ List.length (x t) = List.length (y t)
    /\ (forall i row, nth_error rows i = Some row ->
                      nth_error (y t) i = Some (AVG_BUILD_TIME row)).
Proof.
  intros Hp t Ht rows. apply mapToKpiStateOrNull_payload in Hp.
  destruct Hp as [_ [_ ->]]. simpl in Ht.
  apply seriesOf_In in Ht. destruct Ht as [Ht _].
  assert (Hy : y t = map AVG_BUILD_TIME rows) by (rewrite Ht; reflexivity).
  assert (Hx : x t = map DATE rows) by (rewrite Ht; reflexivity).
  split; [exact Hy |]. split; [exact Hx |]. split.
  - now rewrite Hx, Hy, !length_map.
  - intros i row Hi. rewrite Hy. now apply map_nth_error.
Qed.

(** On the spec's example the line A holds a null second point. *)
Lemma null_points_kept_example :
  exists t,
    name t = "A"
    /\ y t = [Some 4%Q; None; Some 6%Q]
    /\ x t = [Some 1%Z; Some 2%Z; Some 3%Z]
    /\ List.length (x t) = List.length (y t).
Proof.
  exists (traceOf "A" (map Sample.heapA (processed Sample.jsonArrays))).
  split; [reflexivity |].
  pose proof (null_points_kept Sample.config Sample.inherited Sample.this
                Sample.jsonArrays Sample.heapA _ heapA_payload
                (traceOf "A" (map Sample.heapA (processed Sample.jsonArrays)))) as H.
  assert (Hin : In (Object (traceOf "A" (map Sample.heapA (processed Sample.jsonArrays))))
                   (data (kpiState Sample.config Sample.this Sample.dataA))).
  { right. left. vm_compute. reflexivity. }
  destruct (H Hin) as [Hy [Hx [Hlen _]]].
  split; [exact Hy |]. split; [exact Hx | exact Hlen].
Defined.

(** ** Short arrays (C9) *)

(** C9.  The loop over the arrays passes over every array of fewer than
    two rows, leaving trace lines and rows as they are, and runs the row
    loop on every other array; so the loop does on a list of arrays what
    it does on the arrays of two or more rows among them, and past the
    sufficiency test so does the call, for any number of further arrays. *)
Theorem short_arrays_skipped (config : Config) (inherited : string -> bool)
    (this : Mapper) (jsonArrays : list (list nat)) (h : Heap) (o : TraceLines) :
  (forall results,
      (List.length results < 2)%nat ->
      mapArrays inherited (results :: jsonArrays) h o = mapArrays inherited jsonArrays h o)
  /\ (forall results,
      (2 <= List.length results)%nat ->
      mapArrays inherited (results :: jsonArrays) h o
      = match mapResults inherited results h o with
        | (h1, Normal o1) => mapArrays inherited jsonArrays h1 o1
        | (h1, Throw e) => (h1, Throw e)
        end)
  /\ mapArrays inherited jsonArrays h o
     = mapArrays inherited
         (filter (fun results => negb (List.length results <? 2)%nat) jsonArrays) h o
  /\ (forall overall grouped,
      sufficient overall grouped ->
      mapToKpiStateOrNull config inherited this (overall :: grouped :: jsonArrays) h
      = mapToKpiStateOrNull config inherited this
          (overall :: grouped ::
             filter (fun results => negb (List.length results <? 2)%nat) jsonArrays) h).
Proof.
  assert (Hfilter : forall js h o,
             mapArrays inherited js h o
             = mapArrays inherited
                 (filter (fun results => negb (List.length results <? 2)%nat) js) h o).
  { clear. induction js as [| results js IH]; intros h o; simpl; [reflexivity |].
    destruct (List.length results <? 2)%nat eqn:Hshort; simpl; [apply IH |].
    rewrite Hshort.
    destruct (mapResults inherited results h o) as [h1 [o1 | e]];
      [apply IH | reflexivity]. }
  split; [| split; [| split]].
  - intros results Hshort. simpl. apply Nat.ltb_lt in Hshort. now rewrite Hshort.
  - intros results Hlong. simpl. apply Nat.ltb_ge in Hlong. now rewrite Hlong.
  - apply Hfilter.
  - intros overall grouped Hs.
    rewrite !(mapToKpiStateOrNull_sufficient _ _ _ _ _ _ _ Hs).
    rewrite (Hfilter (overall :: grouped :: jsonArrays)).
    destruct Hs as [Ho Hg].
    assert (Hg' : (2 <= List.length grouped)%nat) by lia.
    apply Nat.ltb_ge in Ho. apply Nat.ltb_ge in Hg'.
    simpl filter. rewrite Ho, Hg'. reflexivity.
Qed.

(** A third array of one row changes nothing. *)
Lemma short_arrays_skipped_example :
  mapArrays Sample.inherited ([0%nat] :: Sample.jsonArrays) Sample.heapA []
  = mapArrays Sample.inherited Sample.jsonArrays Sample.heapA []
  /\ mapToKpiStateOrNull Sample.config Sample.inherited Sample.this
       (Sample.jsonArrays ++ [[5%nat]]) Sample.heapA
     = mapToKpiStateOrNull Sample.config Sample.inherited Sample.this
         Sample.jsonArrays Sample.heapA.
Proof.
  split.
  - apply (proj1 (short_arrays_skipped Sample.config Sample.inherited Sample.this
                    Sample.jsonArrays Sample.heapA []) [0%nat]).
    simpl. lia.
  - apply (proj2 (proj2 (proj2
             (short_arrays_skipped Sample.config Sample.inherited Sample.this
                [[5%nat]] Sample.heapA []))) [0; 1]%nat [2; 3; 4; 5; 6; 7]%nat).
    unfold sufficient. simpl. lia.
Defined.

(** ** The Overall line (C10) *)

Lemma pointsOf_all (g : string) (rows : list Row) :
  Forall (fun row => groupName row = g) rows -> pointsOf g rows = rows.
Proof.
  intros Hall. unfold pointsOf.
  induction Hall as [| row rows Hrow _ IH]; simpl; [reflexivity |].
  rewrite Hrow, String.eqb_refl. now rewrite IH.
Qed.

(** C10.  Whenever a payload is returned its series are not empty; and
    when the rows of the overall array carry no group field, as the rows
    of the overall query do, the series hold a trace line named Overall, of
    width 3, with at least two points. *)
Theorem overall_line_present (config : Config) (inherited : string -> bool)
    (this : Mapper) (overall : list nat) (others : list (list nat)) (h : Heap)
    (p : IKpiState) :
  snd (mapToKpiStateOrNull config inherited this (overall :: others) h)
  = Normal (Some p) ->
  (forall r, In r overall -> GROUP (h r) = None) ->
  data p <> []
  /\ exists t,
       In (Object t) (data p)
       /\ name t = "Overall"
       /\ width t = 3%Z
       /\ (2 <= List.length (x t))%nat
       /\ (2 <= List.length (y t))%nat.
Proof.
  intros Hp Hnone. apply mapToKpiStateOrNull_payload in Hp.
  destruct Hp as [[overall' [grouped [rest [Heq [Ho Hg]]]]] [_ ->]].
  injection Heq as <- ->. simpl data.
  set (rows := map h (processed (overall :: grouped :: rest))).
  assert (Hrows : rows = map h overall ++ map h (processed (grouped :: rest))).
  { unfold rows, processed. simpl filter.
    apply Nat.ltb_ge in Ho. rewrite Ho. simpl. now rewrite map_app. }
  assert (Hall : Forall (fun row => groupName row = "Overall") (map h overall)).
  { rewrite Forall_map, Forall_forall. intros r Hr.
    unfold groupName. now rewrite (Hnone r Hr). }
  assert (Hlen : (2 <= List.length (pointsOf "Overall" rows))%nat).
  { rewrite Hrows. unfold pointsOf. rewrite filter_app.
    fold (pointsOf "Overall" (map h overall)).
    rewrite (pointsOf_all "Overall" _ Hall), length_app, length_map. lia. }
  assert (Hin : In (Object (traceOf "Overall" rows)) (seriesOf rows)).
  { apply In_seriesOf. rewrite Hrows, map_app, in_app_iff. left.
    destruct overall as [| r overall]; [simpl in Ho; lia |].
    simpl. left. now inversion Hall. }
  split.
  - intros Hempty. rewrite Hempty in Hin. contradiction.
  - exists (traceOf "Overall" rows).
    split; [exact Hin |]. split; [reflexivity |]. split; [reflexivity |].
    unfold traceOf. simpl. now rewrite !length_map.
Qed.

Lemma overall_line_present_example :
  exists p t,
    snd (mapToKpiStateOrNull Sample.config Sample.inherited Sample.this
           Sample.jsonArrays Sample.heapA) = Normal (Some p)
    /\ In (Object t) (data p)
    /\ name t = "Overall"
    /\ width t = 3%Z
    /\ (2 <= List.length (x t))%nat
    /\ (2 <= List.length (y t))%nat.
Proof.
  destruct (overall_line_present Sample.config Sample.inherited Sample.this
              [0; 1]%nat [[2; 3; 4; 5; 6; 7]%nat] Sample.heapA _ heapA_payload)
    as [_ [t Ht]].
  - intros r [<- | [<- | []]]; reflexivity.
  - exists (kpiState Sample.config Sample.this Sample.dataA), t.
    split; [exact heapA_payload | exact Ht].
Defined.

(** ** The query constants (C5) *)

Lemma append_assoc (a b c : string) :
  ((a ++ b) ++ c)%string = (a ++ b ++ c)%string.
Proof. induction a as [| ch a IH]; simpl; [reflexivity | now rewrite IH]. Qed.

Lemma append_empty_r (a : string) : (a ++ "")%string = a.
Proof. induction a as [| ch a IH]; simpl; [reflexivity | now rewrite IH]. Qed.

Lemma concat_cons (piece : string) (pieces : list string) :
  String.concat "" (piece :: pieces) = (piece ++ String.concat "" pieces)%string.
Proof.
  destruct pieces as [| piece' pieces]; simpl;
    [now rewrite append_empty_r | reflexivity].
Qed.

Lemma concat_app (pieces1 pieces2 : list string) :
  String.concat "" (pieces1 ++ pieces2)
  = (String.concat "" pieces1 ++ String.concat "" pieces2)%string.
Proof.
  induction pieces1 as [| piece pieces1 IH]; [reflexivity |].
  rewrite <- app_comm_cons, !concat_cons, IH. now rewrite append_assoc.
Qed.

(** Consecutive pieces of a template literal occur in its text. *)
Lemma occurs_pieces (pieces : list string) (i k : nat) :
  occurs (String.concat "" (firstn k (skipn i pieces))) (String.concat "" pieces).
Proof.
  exists (String.concat "" (firstn i pieces)),
         (String.concat "" (skipn k (skipn i pieces))).
  rewrite <- !concat_app, !firstn_skipn. reflexivity.
Qed.

Lemma occurs_trans (a b c : string) : occurs a b -> occurs b c -> occurs a c.
Proof.
  intros [before [after ->]] [before' [after' ->]].
  exists (before' ++ before)%string, (after ++ after')%string.
  now rewrite !append_assoc.
Qed.

(** The decimal text of an integer determines the integer. *)
Lemma show_injective (n m : Z) : show n = show m -> n = m.
Proof.
  assert (Hread : forall k, NilZero.int_of_string (show k) = Some (Z.to_int k)).
  { intros k. unfold show. destruct k as [| q | q]; [reflexivity | |];
      apply NilZero.isi; simpl; try discriminate;
      intros [= Hnil]; exact (DecimalPos.Unsigned.to_uint_nonnil q Hnil). }
  intros Heq. apply (f_equal NilZero.int_of_string) in Heq.
  rewrite !Hread in Heq. injection Heq. apply DecimalZ.to_int_inj.
Qed.

Section QueryTexts.

Variable config : Config.
Variable GetPeriod : Z -> Z.
Variable this : Mapper.
Variables from to : string.
Variable dateRange : Z.

Lemma window_in_subquery :
  occurs (" WHERE (BUILD_COMPLETED_DATE BETWEEN DATE_SUB('" ++ from
          ++ "', INTERVAL " ++ show (GetPeriod dateRange - 1) ++ " DAY) AND '"
          ++ to ++ "') ")%string
         (dailyAvgBuildTimeSubquery config GetPeriod this from to dateRange).
Proof.
  unfold dailyAvgBuildTimeSubquery.
  match goal with
  | |- occurs _ (String.concat _ ?pieces) => exact (occurs_pieces pieces 4 7)
  end.
Qed.

Lemma window_in_grouped_subquery :
  occurs (" WHERE (BUILD_COMPLETED_DATE BETWEEN DATE_SUB('" ++ from
          ++ "', INTERVAL " ++ show (GetPeriod dateRange - 1) ++ " DAY) AND '"
          ++ to ++ "') ")%string
         (dailyAvgBuildTimeGroupedSubquery config GetPeriod this from to dateRange).
Proof.
  unfold dailyAvgBuildTimeGroupedSubquery.
  match goal with
  | |- occurs _ (String.concat _ ?pieces) => exact (occurs_pieces pieces 6 7)
  end.
Qed.

Lemma subquery_in_overallQuery :
  occurs (dailyAvgBuildTimeSubquery config GetPeriod this from to dateRange)
         (overallQuery config GetPeriod this from to dateRange).
Proof.
  unfold overallQuery.
  match goal with
  | |- occurs _ (String.concat _ ?pieces) => exact (occurs_pieces pieces 3 1)
  end.
Qed.

Lemma subquery_in_groupedQuery :
  occurs (dailyAvgBuildTimeGroupedSubquery config GetPeriod this from to dateRange)
         (groupedQuery config GetPeriod this from to dateRange).
Proof.
  unfold groupedQuery.
  match goal with
  | |- occurs _ (String.concat _ ?pieces) => exact (occurs_pieces pieces 10 1)
  end.
Qed.

End QueryTexts.

(** C5.  For every date range, with [period] the moving-average period of
    the range, [getQueryStrings] returns two query texts, overall and
    grouped, that carry the lookback [period - 1] and the coverage
    [floor (period / 2)]:
    - in both, the window of the daily averages starts
      [INTERVAL period - 1 DAY] before the from-date, and the moving
      average of a day runs over the days from [INTERVAL period - 1 DAY]
      before it;
    - in the grouped text, a value is NULL when fewer than
      [floor (period / 2)] days are counted, [floor (period / 2)] being
      the largest integer whose double does not exceed the period;
    these are the values of the locals [nPrevDays] and [minPrevDayData];
    the decimal text written into a query determines the number, and the
    texts depend on the range through the period only. *)
Theorem getQueryStrings_constants (config : Config) (GetPeriod : Z -> Z)
    (this : Mapper) (from to : string) (dateRange : Z) :
  let period := GetPeriod dateRange in
  let lookback := (period - 1)%Z in
  let coverage := (period / 2)%Z in
  (exists overall grouped,
      getQueryStrings config GetPeriod this from to dateRange = [overall; grouped]
      /\ occurs (" WHERE (BUILD_COMPLETED_DATE BETWEEN DATE_SUB('" ++ from
                 ++ "', INTERVAL " ++ show lookback ++ " DAY) AND '"
                 ++ to ++ "') ")%string overall
      /\ occurs (" ON T2.BUILD_DATE BETWEEN DATE_SUB(T1.BUILD_DATE, INTERVAL "
                 ++ show lookback ++ " DAY) AND T1.BUILD_DATE")%string overall
      /\ occurs (" WHERE (BUILD_COMPLETED_DATE BETWEEN DATE_SUB('" ++ from
                 ++ "', INTERVAL " ++ show lookback ++ " DAY) AND '"
                 ++ to ++ "') ")%string grouped
      /\ occurs (" ON ( T2.BUILD_DATE BETWEEN DATE_SUB(T1.BUILD_DATE, INTERVAL "
                 ++ show lookback ++ " DAY) AND T1.BUILD_DATE )")%string grouped
      /\ occurs (" ,CASE WHEN COUNT(T2.BUILD_DATE) < " ++ show coverage
                 ++ " THEN NULL ELSE AVG(T2.AVG_BUILD_TIME) END AS 'AVG_BUILD_TIME'")%string
                grouped)
  /\ (2 * coverage <= period < 2 * coverage + 2)%Z
  /\ nPrevDays GetPeriod dateRange = lookback
  /\ minPrevDayData GetPeriod dateRange = coverage
  /\ (forall n m : Z, show n = show m -> n = m)
  /\ (forall dateRange',
        GetPeriod dateRange' = period ->
        getQueryStrings config GetPeriod this from to dateRange'
        = getQueryStrings config GetPeriod this from to dateRange).
Proof.
  intros period lookback coverage.
  split; [| split; [| split; [| split; [| split]]]].
  - exists (overallQuery config GetPeriod this from to dateRange),
           (groupedQuery config GetPeriod this from to dateRange).
    split; [reflexivity |]. split; [| split; [| split; [| split]]].
    + eapply occurs_trans; [apply window_in_subquery | apply subquery_in_overallQuery].
    + unfold overallQuery.
      match goal with
      | |- occurs _ (String.concat _ ?pieces) => exact (occurs_pieces pieces 8 3)
      end.
    + eapply occurs_trans;
        [apply window_in_grouped_subquery | apply subquery_in_groupedQuery].
    + unfold groupedQuery.
      match goal with
      | |- occurs _ (String.concat _ ?pieces) => exact (occurs_pieces pieces 15 3)
      end.
    + unfold groupedQuery.
      match goal with
      | |- occurs _ (String.concat _ ?pieces) => exact (occurs_pieces pieces 1 3)
      end.
  - subst coverage.
    pose proof (Z.div_mod period 2). pose proof (Z.mod_pos_bound period 2). lia.
  - reflexivity.
  - reflexivity.
  - exact show_injective.
  - intros dateRange' Hsame.
    unfold getQueryStrings, overallQuery, groupedQuery, dailyAvgBuildTimeSubquery,
      dailyAvgBuildTimeGroupedSubquery, nPrevDays, minPrevDayData, movingAveragePeriod.
    fold period. now rewrite Hsame.
Qed.

(** ** The dates of a request (C6) *)

Lemma GetDateRange_quot (from to : Z) :
  KpiMapper.GetDateRange from to = (Z.quot (to - from) 86400000 + 1)%Z.
Proof. reflexivity. Qed.

(** C6.  For every pair of dates, [GetKpiStateOrNull] sets the chart bounds
    from the dates as given, and calls [getQueryStrings] with the from-date
    moved back by two days, the to-date as given, and the range computed
    from the dates as given: the whole days from [from] to [to], plus one. *)
Theorem GetKpiStateOrNull_dates (config : Config)
    (format : moment.Moment -> string -> string)
    (Query : string -> Outcome (list Row))
    (getQueryStrings : Mapper -> string -> string -> Z -> list string)
    (mapToKpiStateOrNull :
       Mapper -> list (list nat) -> Heap -> Heap * Outcome (option IKpiState))
    (this : Mapper) (from to : Z) (h : Heap) (next : nat) :
  let this1 :=
    set_chart this (format (moment.utc from) (dateformat_charts config))
                   (format (moment.utc to) (dateformat_charts config)) in
  KpiMapper.GetKpiStateOrNull config format Query getQueryStrings mapToKpiStateOrNull
    this from to h next
  = (this1,
     KpiMapper.queryAndMap Query mapToKpiStateOrNull this1
       (getQueryStrings this1
          (format (moment.utc (from - 2 * 86400000)) (dateformat_mysql config))
          (format (moment.utc to) (dateformat_mysql config))
          (Z.quot (to - from) 86400000 + 1)%Z)
       h next)
  /\ chartFromDate this1 = Some (format (moment.utc from) (dateformat_charts config))
  /\ chartToDate this1 = Some (format (moment.utc to) (dateformat_charts config))
  /\ (forall a b : Z,
        KpiMapper.GetDateRange (a * 86400000) (b * 86400000) = (b - a + 1)%Z).
Proof.
  intros this1. split; [reflexivity |]. split; [reflexivity |].
  split; [reflexivity |].
  intros a b. rewrite GetDateRange_quot.
  replace (b * 86400000 - a * 86400000)%Z with ((b - a) * 86400000)%Z by ring.
  rewrite Z.quot_mul by discriminate. reflexivity.
Qed.

(** ** Start and end dates (C7) *)

Lemma length_one (results : list Row) :
  List.length results = 1%nat -> exists row, results = [row].
Proof.
  destruct results as [| row [| row' rest]]; simpl; try discriminate.
  intros _. now exists row.
Qed.

Lemma GetStartDate_contract (Query : string -> Outcome (list Row)) (query : string) :
  date_contract Query query (KpiMapper.GetStartDate Query query).
Proof.
  intros this w. unfold KpiMapper.GetStartDate.
  destruct (Query query) as [results | e]; [| reflexivity].
  destruct (Nat.eqb_spec (List.length results) 1) as [Hone | Hnot]; simpl.
  - destruct (length_one results Hone) as [row ->].
    destruct (DATE row) as [d |] eqn:Hdate; simpl.
    + split; [| split].
      * split; [| intros [err Herr]; discriminate].
        intros [Hlen | [row' [Heq Hnone]]]; [simpl in Hlen; congruence |].
        injection Heq as <-. congruence.
      * intros [Hlen | [row' [Heq Hnone]]]; [simpl in Hlen; congruence |].
        injection Heq as <-. congruence.
      * intros row' d' Heq Hd. injection Heq as <-. congruence.
    + split; [| split].
      * split; [eauto |]. intros _. right. now exists row.
      * intros _. eauto.
      * intros row' d' Heq Hd. injection Heq as <-. congruence.
  - split; [| split].
    + split; [eauto |]. intros _. now left.
    + intros _. eauto.
    + intros row d -> _. simpl in Hnot. congruence.
Qed.

Lemma GetEndDate_contract (Query : string -> Outcome (list Row)) (query : string) :
  date_contract Query query (KpiMapper.GetEndDate Query query).
Proof.
  intros this w. unfold KpiMapper.GetEndDate.
  destruct (Query query) as [results | e]; [| reflexivity].
  destruct (Nat.eqb_spec (List.length results) 1) as [Hone | Hnot]; simpl.
  - destruct (length_one results Hone) as [row ->].
    destruct (DATE row) as [d |] eqn:Hdate; simpl.
    + split; [| split].
      * split; [| intros [err Herr]; discriminate].
        intros [Hlen | [row' [Heq Hnone]]]; [simpl in Hlen; congruence |].
        injection Heq as <-. congruence.
      * intros [Hlen | [row' [Heq Hnone]]]; [simpl in Hlen; congruence |].
        injection Heq as <-. congruence.
      * intros row' d' Heq Hd. injection Heq as <-. congruence.
    + split; [| split].
      * split; [eauto |]. intros _. right. now exists row.
      * intros _. eauto.
      * intros row' d' Heq Hd. injection Heq as <-. congruence.
  - split; [| split].
    + split; [eauto |]. intros _. now left.
    + intros _. eauto.
    + intros row d -> _. simpl in Hnot. congruence.
Qed.

(** C7.  [GetStartDate] and [GetEndDate], each on its own query: when the
    storage returns rows, the call raises exactly when the rows are not
    one row, or are one row without a [DATE]; it then calls [Log] once,
    with the error it raises and the query; on one row with a [DATE] it
    returns that date.  (A failure of the storage itself is passed on
    unlogged.) *)
Theorem GetStartDate_GetEndDate_contract (Query : string -> Outcome (list Row))
    (getStartDateQuery getEndDateQuery : string) :
  date_contract Query getStartDateQuery (KpiMapper.GetStartDate Query getStartDateQuery)
  /\ date_contract Query getEndDateQuery (KpiMapper.GetEndDate Query getEndDateQuery).
Proof.
  split; [apply GetStartDate_contract | apply GetEndDate_contract].
Qed.

(** With a period of 7 days: six days of lookback, three days of coverage,
    written into the grouped text. *)
Lemma getQueryStrings_constants_example :
  occurs " ,CASE WHEN COUNT(T2.BUILD_DATE) < 3 THEN NULL"
         (nth 1 (getQueryStrings Sample.config (fun _ => 7%Z) Sample.this
                   "2018-01-01" "2018-01-31" 31) "")
  /\ occurs "DATE_SUB('2018-01-01', INTERVAL 6 DAY) AND '2018-01-31'"
            (nth 0 (getQueryStrings Sample.config (fun _ => 7%Z) Sample.this
                      "2018-01-01" "2018-01-31" 31) "")
  /\ getQueryStrings Sample.config (fun _ => 7%Z) Sample.this "2018-01-01" "2018-01-31" 40
     = getQueryStrings Sample.config (fun _ => 7%Z) Sample.this "2018-01-01" "2018-01-31" 31.
Proof.
  destruct (getQueryStrings_constants Sample.config (fun _ => 7%Z) Sample.this
              "2018-01-01" "2018-01-31" 31)
    as [[overall [grouped [Htexts [Hwindow [_ [_ [_ Hcase]]]]]]] [_ [_ [_ [_ Hsame]]]]].
  rewrite Htexts. simpl nth.
  split; [| split].
  - eapply occurs_trans; [| exact Hcase].
    exists "", " ELSE AVG(T2.AVG_BUILD_TIME) END AS 'AVG_BUILD_TIME'". reflexivity.
  - eapply occurs_trans; [| exact Hwindow].
    exists " WHERE (BUILD_COMPLETED_DATE BETWEEN ", ") ". reflexivity.
  - rewrite <- Htexts. apply Hsame. reflexivity.
Defined.

(** A storage that answers the start-date query with no row: the call
    raises and one entry is logged. *)
Lemma GetStartDate_no_row :
  exists err,
    snd (KpiMapper.GetStartDate (fun _ => Normal [])
           (getStartDateQuery Sample.config) Sample.this (mkWorld [] []))
    = Throw err
    /\ List.length
         (logged (fst (KpiMapper.GetStartDate (fun _ => Normal [])
                         (getStartDateQuery Sample.config) Sample.this (mkWorld [] []))))
       = 1%nat.
Proof.
  pose proof (proj1 (GetStartDate_GetEndDate_contract (fun _ => Normal [])
                       (getStartDateQuery Sample.config) (getEndDateQuery Sample.config))
                Sample.this (mkWorld [] [])) as H.
  cbv beta iota in H. destruct H as [_ [Hlog _]].
  destruct Hlog as [err [Herr Hlogged]]; [left; simpl; discriminate |].
  exists err. split; [exact Herr |]. rewrite Hlogged. reflexivity.
Defined.

(** * Further properties *)

(** ** GetDateRange *)

(** X1.  Two dates less than a day apart, in either order, make a range
    of one day. *)
Theorem GetDateRange_within_a_day (from to : Z) :
  (Z.abs (to - from) < moment.msPerDay)%Z ->
  KpiMapper.GetDateRange from to = 1%Z.
Proof.
  intros Hclose. rewrite GetDateRange_quot.
  change 86400000%Z with moment.msPerDay.
  assert (Hq : Z.quot (to - from) moment.msPerDay = 0%Z).
  { apply Z.quot_small_iff; [discriminate | exact Hclose]. }
  now rewrite Hq.
Qed.

Lemma GetDateRange_within_a_day_example :
  KpiMapper.GetDateRange 86400000 (86400000 - 1) = 1%Z.
Proof.
  apply GetDateRange_within_a_day. vm_compute. reflexivity.
Defined.

(** X2.  For a to-date not before the from-date the range [n] is at least
    one, and the dates are at least [n - 1] and less than [n] days apart. *)
Theorem GetDateRange_bounds (from to : Z) :
  (from <= to)%Z ->
  let n := KpiMapper.GetDateRange from to in
  (1 <= n)%Z
  /\ ((n - 1) * moment.msPerDay <= to - from < n * moment.msPerDay)%Z.
Proof.
  intros Hle n. subst n. rewrite GetDateRange_quot.
  change 86400000%Z with moment.msPerDay.
  rewrite Z.quot_div_nonneg by (unfold moment.msPerDay; lia).
  unfold moment.msPerDay.
  pose proof (Z.div_mod (to - from) 86400000).
  pose proof (Z.mod_pos_bound (to - from) 86400000).
  pose proof (Z.div_pos (to - from) 86400000).
  lia.
Qed.

Lemma GetDateRange_bounds_example :
  (1 <= KpiMapper.GetDateRange 0 (30 * 86400000 + 5))%Z
  /\ KpiMapper.GetDateRange 0 (30 * 86400000 + 5) = 31%Z.
Proof.
  split.
  - apply (GetDateRange_bounds 0 (30 * 86400000 + 5)). lia.
  - reflexivity.
Defined.

(** X3.  Exchanging the two dates turns a range [n] into [2 - n]: a
    request whose to-date is a day or more before its from-date gets a
    range of zero or less, and no error. *)
Theorem GetDateRange_reversed (from to : Z) :
  KpiMapper.GetDateRange to from = (2 - KpiMapper.GetDateRange from to)%Z.
Proof.
  rewrite !GetDateRange_quot.
  replace (from - to)%Z with (- (to - from))%Z by ring.
  rewrite Z.quot_opp_l by discriminate. ring.
Qed.

(** ** The filter of the queries *)

Lemma filterCondition_unfiltered (this : Mapper) :
  unfiltered this = true -> filterCondition this = "".
Proof. unfold unfiltered, filterCondition. now intros ->. Qed.

(** X4.  A mapper with an empty filter column or an empty filter value
    asks unfiltered queries: two such mappers with the same grouping
    column get the same query texts, whatever else they hold. *)
Theorem getQueryStrings_unfiltered (config : Config) (GetPeriod : Z -> Z)
    (this this' : Mapper) (from to : string) (dateRange : Z) :
  unfiltered this = true -> unfiltered this' = true ->
  groupByColumn this = groupByColumn this' ->
  getQueryStrings config GetPeriod this from to dateRange
  = getQueryStrings config GetPeriod this' from to dateRange.
Proof.
  intros Hu Hu' Hg.
  unfold getQueryStrings, overallQuery, groupedQuery,
    dailyAvgBuildTimeSubquery, dailyAvgBuildTimeGroupedSubquery.
  rewrite (filterCondition_unfiltered this Hu),
          (filterCondition_unfiltered this' Hu'), Hg.
  reflexivity.
Qed.

Lemma getQueryStrings_unfiltered_example :
  getQueryStrings Sample.config SampleStorage.GetPeriod Sample.this "a" "b" 31
  = getQueryStrings Sample.config SampleStorage.GetPeriod
      (mkMapper "Other title" None None "PLATFORM" "CYCLE" "") "a" "b" 31.
Proof.
  apply getQueryStrings_unfiltered; reflexivity.
Defined.

(** ** Querying, then mapping *)

Lemma alloc_spec (rows : list Row) :
  forall (h : Heap) (next : nat) (h' : Heap) (next' : nat) (refs : list nat),
  alloc rows h next = (h', next', refs) ->
  next' = (next + List.length rows)%nat
  /\ map h' refs = rows
  /\ Forall (fun r => (next <= r < next')%nat) refs
  /\ (forall r, (r < next)%nat -> h' r = h r).
Proof.
  induction rows as [| row rows IH]; intros h next h' next' refs Halloc; simpl in *.
  - injection Halloc as <- <- <-. repeat split; auto; lia.
  - destruct (alloc rows (assign h next row) (S next)) as [[h1 next1] refs1] eqn:Hrest.
    injection Halloc as <- <- <-.
    destruct (IH _ _ _ _ _ Hrest) as [Hnext [Hmap [Hrange Hframe]]].
    split; [lia |]. split; [| split].
    + simpl. rewrite Hmap, Hframe by lia. unfold assign.
      now rewrite Nat.eqb_refl.
    + constructor; [lia |].
      eapply Forall_impl; [| exact Hrange]. simpl. intros r Hr. lia.
    + intros r Hr. rewrite Hframe by lia. unfold assign.
      destruct (Nat.eqb_spec r next); [lia | reflexivity].
Qed.

(** The two queries of the concrete mapper, both answered. *)
Lemma queryAll_two (Query : string -> Outcome (list Row)) (q1 q2 : string)
    (h : Heap) (next : nat) (rows1 rows2 : list Row) :
  Query q1 = Normal rows1 -> Query q2 = Normal rows2 ->
  exists h2 next2 refs1 refs2,
    KpiMapper.queryAll Query [q1; q2] [] h next = (h2, next2, Normal [refs1; refs2])
    /\ map h2 refs1 = rows1
    /\ map h2 refs2 = rows2
    /\ Forall (fun r => (next <= r)%nat) (refs1 ++ refs2)
    /\ (forall r, (r < next)%nat -> h2 r = h r).
Proof.
  intros H1 H2. simpl. rewrite H1.
  destruct (alloc rows1 h next) as [[h1 next1] refs1] eqn:Ha1.
  rewrite H2.
  destruct (alloc rows2 h1 next1) as [[h2 next2] refs2] eqn:Ha2.
  destruct (alloc_spec _ _ _ _ _ _ Ha1) as [Hn1 [Hm1 [Hr1 Hf1]]].
  destruct (alloc_spec _ _ _ _ _ _ Ha2) as [Hn2 [Hm2 [Hr2 Hf2]]].
  exists h2, next2, refs1, refs2. simpl.
  split; [reflexivity |]. split; [| split; [exact Hm2 | split]].
  - rewrite <- Hm1. apply map_ext_in. intros r Hr.
    rewrite Forall_forall in Hr1. apply Hf2. apply Hr1 in Hr. lia.
  - apply Forall_app. split.
    + eapply Forall_impl; [| exact Hr1]. simpl. intros r Hr. lia.
    + eapply Forall_impl; [| exact Hr2]. simpl. intros r Hr. lia.
  - intros r Hr. rewrite Hf2 by lia. now apply Hf1.
Qed.

Lemma BuildTime_GetKpiStateOrNull_unfold (config : Config) (GetPeriod : Z -> Z)
    (inherited : string -> bool) (format : moment.Moment -> string -> string)
    (Query : string -> Outcome (list Row))
    (this : Mapper) (from to : Z) (h : Heap) (next : nat) :
  BuildTime_GetKpiStateOrNull config GetPeriod inherited format Query this from to h next
  = (charted config format this from to,
     KpiMapper.queryAndMap Query (mapToKpiStateOrNull config inherited)
       (charted config format this from to)
       [requestOverall config GetPeriod format this from to;
        requestGrouped config GetPeriod format this from to] h next).
Proof. reflexivity. Qed.

Section Request.

Variable config : Config.
Variable GetPeriod : Z -> Z.
Variable inherited : string -> bool.
Variable format : moment.Moment -> string -> string.
Variable Query : string -> Outcome (list Row).
Variable this : Mapper.
Variables from to : Z.
Variable h : Heap.
Variable next : nat.

Lemma queryAndMap_storage_error (e : JsError) :
  Query (requestOverall config GetPeriod format this from to) = Throw e
  \/ ((exists rows, Query (requestOverall config GetPeriod format this from to)
                    = Normal rows)
      /\ Query (requestGrouped config GetPeriod format this from to) = Throw e) ->
  let result :=
    snd (BuildTime_GetKpiStateOrNull config GetPeriod inherited format Query
           this from to h next) in
  snd result = Throw e
  /\ forall r, (r < next)%nat -> fst (fst result) r = h r.
Proof.
  intros Hfail result. subst result.
  rewrite BuildTime_GetKpiStateOrNull_unfold. unfold KpiMapper.queryAndMap. simpl.
  destruct Hfail as [H1 | [[rows H1] H2]]; rewrite H1.
  - simpl. auto.
  - destruct (alloc rows h next) as [[h1 next1] refs1] eqn:Ha1.
    rewrite H2. simpl. split; [reflexivity |].
    destruct (alloc_spec _ _ _ _ _ _ Ha1) as [_ [_ [_ Hf1]]]. exact Hf1.
Qed.

(** X5.  A failure of either query is the outcome of the request: the
    storage's exception is passed on as it is, also when the rows of the
    overall query would have been too few for a chart. *)
Theorem BuildTime_GetKpiStateOrNull_storage_error (e : JsError) :
  Query (requestOverall config GetPeriod format this from to) = Throw e
  \/ ((exists rows, Query (requestOverall config GetPeriod format this from to)
                    = Normal rows)
      /\ Query (requestGrouped config GetPeriod format this from to) = Throw e) ->
  snd (snd (BuildTime_GetKpiStateOrNull config GetPeriod inherited format Query
              this from to h next))
  = Throw e.
Proof.
  intros Hfail. apply (queryAndMap_storage_error e Hfail).
Qed.

(** X6.  When both queries are answered and the overall rows are fewer
    than 2 or the grouped rows fewer than 6, the request gives null. *)
Theorem BuildTime_GetKpiStateOrNull_no_data (rows1 rows2 : list Row) :
  Query (requestOverall config GetPeriod format this from to) = Normal rows1 ->
  Query (requestGrouped config GetPeriod format this from to) = Normal rows2 ->
  (List.length rows1 < 2)%nat \/ (List.length rows2 < 6)%nat ->
  snd (snd (BuildTime_GetKpiStateOrNull config GetPeriod inherited format Query
              this from to h next))
  = Normal None.
Proof.
  intros H1 H2 Hfew.
  rewrite BuildTime_GetKpiStateOrNull_unfold. unfold KpiMapper.queryAndMap.
  destruct (queryAll_two Query _ _ h next _ _ H1 H2)
    as [h2 [next2 [refs1 [refs2 [Hq [Hm1 [Hm2 _]]]]]]].
  cbn [snd]. rewrite Hq.
  rewrite mapToKpiStateOrNull_insufficient; [reflexivity |].
  unfold sufficient. rewrite <- Hm1, <- Hm2, !length_map in Hfew. lia.
Qed.

(** X7.  When both queries are answered with at least 2 and at least 6
    rows, and no group name is reserved, the request gives the payload
    whose series are those of the overall rows followed by the grouped
    rows, and whose x-axis bounds are the dates as given, formatted for
    the chart. *)
Theorem BuildTime_GetKpiStateOrNull_payload (rows1 rows2 : list Row) :
  Query (requestOverall config GetPeriod format this from to) = Normal rows1 ->
  Query (requestGrouped config GetPeriod format this from to) = Normal rows2 ->
  (2 <= List.length rows1)%nat -> (6 <= List.length rows2)%nat ->
  forallb (free inherited) (rows1 ++ rows2) = true ->
  exists p,
    snd (snd (BuildTime_GetKpiStateOrNull config GetPeriod inherited format Query
                this from to h next))
    = Normal (Some p)
    /\ data p = seriesOf (rows1 ++ rows2)
    /\ xaxis (layout p)
       = (Some (format (moment.utc from) (dateformat_charts config)),
          Some (format (moment.utc to) (dateformat_charts config)))
    /\ title (layout p) = Title this.
Proof.
  intros H1 H2 Hlen1 Hlen2 Hfree.
  rewrite BuildTime_GetKpiStateOrNull_unfold. unfold KpiMapper.queryAndMap.
  destruct (queryAll_two Query _ _ h next _ _ H1 H2)
    as [h2 [next2 [refs1 [refs2 [Hq [Hm1 [Hm2 _]]]]]]].
  cbn [snd]. rewrite Hq.
  assert (Hs : sufficient refs1 refs2).
  { unfold sufficient. rewrite <- Hm1, <- Hm2, !length_map in *. lia. }
  assert (Hproc : map h2 (processed [refs1; refs2]) = rows1 ++ rows2).
  { destruct Hs as [Ho Hg]. unfold processed. simpl filter.
    assert (Hg' : (2 <= List.length refs2)%nat) by lia.
    apply Nat.ltb_ge in Ho. apply Nat.ltb_ge in Hg'. rewrite Ho, Hg'. simpl.
    now rewrite app_nil_r, map_app, Hm1, Hm2. }
  pose proof (mapToKpiStateOrNull_returns config inherited
                (charted config format this from to) refs1 refs2 [] h2 Hs) as Hret.
  rewrite Hproc in Hret. specialize (Hret Hfree).
  destruct (mapToKpiStateOrNull config inherited (charted config format this from to)
              [refs1; refs2] h2) as [h3 result].
  cbn [snd] in *. rewrite Hret.
  eexists. split; [reflexivity |]. repeat split.
Qed.

(** X8.  Whatever the storage answers, the request leaves every row
    object that existed before it as it was: the mapper writes only to
    the rows the queries returned. *)
Theorem BuildTime_GetKpiStateOrNull_frame (r : nat) :
  (r < next)%nat ->
  fst (fst (snd (BuildTime_GetKpiStateOrNull config GetPeriod inherited format Query
                   this from to h next))) r
  = h r.
Proof.
  intros Hr.
  destruct (Query (requestOverall config GetPeriod format this from to))
    as [rows1 | e1] eqn:H1.
  2: { apply (queryAndMap_storage_error e1); [now left | exact Hr]. }
  destruct (Query (requestGrouped config GetPeriod format this from to))
    as [rows2 | e2] eqn:H2.
  2: { apply (queryAndMap_storage_error e2); [| exact Hr].
       right. split; [now exists rows1 | exact H2]. }
  rewrite BuildTime_GetKpiStateOrNull_unfold. unfold KpiMapper.queryAndMap.
  destruct (queryAll_two Query _ _ h next _ _ H1 H2)
    as [h2 [next2 [refs1 [refs2 [Hq [_ [_ [Hfresh Hframe]]]]]]]].
  cbn [snd]. rewrite Hq.
  destruct (mapToKpiStateOrNull_heap config inherited
              (charted config format this from to) [refs1; refs2] h2) as [_ Hkeep].
  destruct (mapToKpiStateOrNull config inherited (charted config format this from to)
              [refs1; refs2] h2) as [h3 result].
  cbn [fst] in *. rewrite Hkeep; [now apply Hframe |].
  intros Hin. unfold processed in Hin. apply in_concat in Hin.
  destruct Hin as [a [Ha Hra]]. apply filter_In in Ha. destruct Ha as [Ha _].
  rewrite Forall_forall in Hfresh.
  assert (Hge : (next <= r)%nat).
  { apply Hfresh. rewrite in_app_iff.
    destruct Ha as [<- | [<- | []]]; [now left | now right]. }
  lia.
Qed.

End Request.

Lemma BuildTime_GetKpiStateOrNull_storage_error_example :
  snd (snd (BuildTime_GetKpiStateOrNull Sample.config SampleStorage.GetPeriod
              Sample.inherited SampleStorage.format SampleStorage.QueryFailing
              Sample.this 0 (30 * 86400000) SampleStorage.empty 0))
  = Throw (Error "connection lost").
Proof.
  apply BuildTime_GetKpiStateOrNull_storage_error.
  right. split.
  - exists SampleStorage.rowsOverall. vm_compute. reflexivity.
  - vm_compute. reflexivity.
Defined.

Lemma BuildTime_GetKpiStateOrNull_no_data_example :
  snd (snd (BuildTime_GetKpiStateOrNull Sample.config SampleStorage.GetPeriod
              Sample.inherited SampleStorage.format SampleStorage.QueryFew
              Sample.this 0 (30 * 86400000) SampleStorage.empty 0))
  = Normal None.
Proof.
  apply (BuildTime_GetKpiStateOrNull_no_data Sample.config SampleStorage.GetPeriod
           Sample.inherited SampleStorage.format SampleStorage.QueryFew Sample.this
           0 (30 * 86400000) SampleStorage.empty 0
           SampleStorage.rowsOverall SampleStorage.rowsOverall).
  - vm_compute. reflexivity.
  - vm_compute. reflexivity.
  - right. simpl. lia.
Defined.

Lemma BuildTime_GetKpiStateOrNull_payload_example :
  exists p,
    snd (snd (BuildTime_GetKpiStateOrNull Sample.config SampleStorage.GetPeriod
                Sample.inherited SampleStorage.format SampleStorage.Query
                Sample.this 0 (30 * 86400000) SampleStorage.empty 0))
    = Normal (Some p)
    /\ data p = seriesOf (SampleStorage.rowsOverall ++ SampleStorage.rowsGrouped)
    /\ xaxis (layout p) = (Some "0", Some "30")
    /\ title (layout p) = "Build Time From Queue".
Proof.
  apply (BuildTime_GetKpiStateOrNull_payload Sample.config SampleStorage.GetPeriod
           Sample.inherited SampleStorage.format SampleStorage.Query Sample.this
           0 (30 * 86400000) SampleStorage.empty 0
           SampleStorage.rowsOverall SampleStorage.rowsGrouped).
  - vm_compute. reflexivity.
  - vm_compute. reflexivity.
  - simpl. lia.
  - simpl. lia.
  - vm_compute. reflexivity.
Defined.

Lemma BuildTime_GetKpiStateOrNull_frame_example :
  fst (fst (snd (BuildTime_GetKpiStateOrNull Sample.config SampleStorage.GetPeriod
                   Sample.inherited SampleStorage.format SampleStorage.Query
                   Sample.this 0 (30 * 86400000) Sample.heapA 8))) 0%nat
  = Sample.heapA 0%nat.
Proof.
  apply BuildTime_GetKpiStateOrNull_frame. lia.
Defined.

(** ** The three outcomes of the mapping *)

(** X9.  Given at least two arrays, the mapping has exactly three
    outcomes: null, exactly when the first array has fewer than 2 rows or
    the second fewer than 6; a payload, exactly when the input is
    sufficient and no processed row has a reserved group name; an
    exception, exactly when the input is sufficient and some processed row
    has one. *)
Theorem mapToKpiStateOrNull_outcomes (config : Config) (inherited : string -> bool)
    (this : Mapper) (overall grouped : list nat) (rest : list (list nat)) (h : Heap) :
  let result :=
    snd (mapToKpiStateOrNull config inherited this (overall :: grouped :: rest) h) in
  let rows := map h (processed (overall :: grouped :: rest)) in
  (result = Normal None <-> ~ sufficient overall grouped)
  /\ ((exists p, result = Normal (Some p)) <->
      sufficient overall grouped /\ forallb (free inherited) rows = true)
  /\ ((exists e, result = Throw e) <->
      sufficient overall grouped /\ forallb (free inherited) rows = false).
Proof.
  intros result rows.
  assert (Hcase : sufficient overall grouped \/ ~ sufficient overall grouped)
    by (unfold sufficient; lia).
  destruct Hcase as [Hs | Hn].
  - destruct (forallb (free inherited) rows) eqn:Hfree.
    + pose proof (mapToKpiStateOrNull_returns config inherited this
                    overall grouped rest h Hs Hfree) as Hret.
      fold result in Hret. rewrite Hret.
      split; [| split].
      * split; [discriminate | tauto].
      * split; [auto | eauto].
      * split; [intros [e He]; discriminate | intros [_ Hf]; discriminate].
    + destruct (mapToKpiStateOrNull_reserved config inherited this
                  overall grouped rest h Hs Hfree) as [e He].
      fold result in He. rewrite He.
      split; [| split].
      * split; [discriminate | tauto].
      * split; [intros [p Hp]; discriminate | intros [_ Hf]; discriminate].
      * split; [auto | eauto].
  - assert (Hnull : result = Normal None).
    { unfold result. now rewrite (mapToKpiStateOrNull_insufficient _ _ _ _ _ _ _ Hn). }
    rewrite Hnull.
    split; [| split].
    + tauto.
    + split; [intros [p Hp]; discriminate | tauto].
    + split; [intros [e He]; discriminate | tauto].
Qed.

(** ** Rows and points *)

Lemma list_sum_zero (ks : list string) :
  list_sum (map (fun _ => 0%nat) ks) = 0%nat.
Proof. induction ks; simpl; auto. Qed.

Lemma list_sum_add (a b : string -> nat) (ks : list string) :
  list_sum (map (fun k => (a k + b k)%nat) ks)
  = (list_sum (map a ks) + list_sum (map b ks))%nat.
Proof. induction ks as [| k ks IH]; simpl; [reflexivity | lia]. Qed.

Lemma once_in_NoDup (g : string) (ks : list string) :
  NoDup ks -> In g ks ->
  list_sum (map (fun k => if g =? k then 1%nat else 0%nat) ks) = 1%nat.
Proof.
  intros Hnd. induction Hnd as [| k ks Hk Hnd IH]; intros Hin; [contradiction |].
  simpl. destruct (String.eqb_spec g k) as [-> | Hne].
  - rewrite (map_ext_in _ (fun _ => 0%nat)); [now rewrite list_sum_zero |].
    intros k' Hk'. destruct (String.eqb_spec k k') as [-> | _]; tauto.
  - apply IH. destruct Hin as [-> | Hin]; tauto.
Qed.

Lemma points_partition (rows : list Row) (ks : list string) :
  NoDup ks ->
  (forall row, In row rows -> In (groupName row) ks) ->
  list_sum (map (fun k => List.length (pointsOf k rows)) ks) = List.length rows.
Proof.
  intros Hnd. induction rows as [| row rows IH]; intros Hall.
  - apply list_sum_zero.
  - rewrite (map_ext _ (fun k => ((if (groupName row =? k)%string then 1 else 0)
                                  + List.length (pointsOf k rows))%nat)).
    + rewrite list_sum_add, once_in_NoDup, IH.
      * reflexivity.
      * intros row' Hrow'. apply Hall. now right.
      * exact Hnd.
      * apply Hall. now left.
    + intros k. unfold pointsOf. simpl.
      destruct (groupName row =? k); reflexivity.
Qed.

(** X10.  In a returned payload the numbers of points of all series add up
    to the number of rows in the arrays of two or more rows: every such
    row gives one point, on one line. *)
Theorem every_row_one_point (config : Config) (inherited : string -> bool)
    (this : Mapper) (jsonArrays : list (list nat)) (h : Heap) (p : IKpiState) :
  snd (mapToKpiStateOrNull config inherited this jsonArrays h) = Normal (Some p) ->
  pointCount (data p) = List.length (processed jsonArrays).
Proof.
  intros Hp. apply mapToKpiStateOrNull_payload in Hp.
  destruct Hp as [_ [_ ->]]. simpl data.
  set (rows := map h (processed jsonArrays)).
  unfold pointCount, seriesOf. rewrite map_map. simpl.
  rewrite (map_ext _ (fun k => List.length (pointsOf k rows)))
    by (intros k; apply length_map).
  rewrite points_partition; [unfold rows; apply length_map | |].
  - eapply Permutation_NoDup;
      [symmetry; apply enumeration_order_perm | apply first_sightings_NoDup].
  - intros row Hrow.
    eapply Permutation_in; [symmetry; apply enumeration_order_perm |].
    apply first_sightings_In. now apply in_map.
Qed.

Lemma every_row_one_point_example :
  pointCount Sample.dataA = 8%nat.
Proof.
  exact (every_row_one_point Sample.config Sample.inherited Sample.this
           Sample.jsonArrays Sample.heapA _ heapA_payload).
Defined.

(** X11.  No series of a returned payload is empty: each trace line holds
    at least one x-value and one y-value. *)
Theorem no_empty_series (config : Config) (inherited : string -> bool)
    (this : Mapper) (jsonArrays : list (list nat)) (h : Heap) (p : IKpiState) :
  snd (mapToKpiStateOrNull config inherited this jsonArrays h) = Normal (Some p) ->
  forall t, In (Object t) (data p) -> x t <> [] /\ y t <> [].
Proof.
  intros Hp t Ht. apply mapToKpiStateOrNull_payload in Hp.
  destruct Hp as [_ [_ ->]]. simpl in Ht.
  apply seriesOf_In in Ht. destruct Ht as [Ht Hname].
  apply in_map_iff in Hname. destruct Hname as [row [Hrow Hin]].
  assert (Hpoint : In row (pointsOf (name t) (map h (processed jsonArrays)))).
  { unfold pointsOf. apply filter_In. split; [exact Hin |].
    rewrite Hrow. apply String.eqb_refl. }
  rewrite Ht. unfold traceOf. simpl.
  destruct (pointsOf (name t) (map h (processed jsonArrays)));
    [contradiction | split; discriminate].
Qed.

Lemma no_empty_series_example :
  x (mkTraceLine "A" [Some 1%Z; Some 2%Z; Some 3%Z] [Some 4%Q; None; Some 6%Q] 1) <> []
  /\ y (mkTraceLine "A" [Some 1%Z; Some 2%Z; Some 3%Z] [Some 4%Q; None; Some 6%Q] 1)
     <> [].
Proof.
  apply (no_empty_series Sample.config Sample.inherited Sample.this
           Sample.jsonArrays Sample.heapA _ heapA_payload).
  simpl. right. left. reflexivity.
Defined.

(** ** Mapping twice *)

Lemma mapToKpiStateOrNull_reached (config : Config) (inherited : string -> bool)
    (this : Mapper) (jsonArrays : list (list nat)) (h h' : Heap) :
  reached h h' ->
  snd (mapToKpiStateOrNull config inherited this jsonArrays h')
  = snd (mapToKpiStateOrNull config inherited this jsonArrays h).
Proof.
  intros Hreached.
  destruct jsonArrays as [| overall [| grouped rest]]; [reflexivity | |].
  { unfold mapToKpiStateOrNull.
    destruct (List.length overall <? 2)%nat; reflexivity. }
  assert (Hcase : sufficient overall grouped \/ ~ sufficient overall grouped)
    by (unfold sufficient; lia).
  destruct Hcase as [Hs | Hn].
  - rewrite !(mapToKpiStateOrNull_sufficient _ _ _ _ _ _ _ Hs).
    destruct (mapArrays_spec inherited h (overall :: grouped :: rest) h' [] Hreached)
      as [Hout' _].
    destruct (mapArrays_spec inherited h (overall :: grouped :: rest) h []
                (fun r => groupDefaulted_refl (h r))) as [Hout _].
    destruct (mapArrays inherited (overall :: grouped :: rest) h' []) as [h1' out'].
    destruct (mapArrays inherited (overall :: grouped :: rest) h []) as [h1 out].
    cbn [snd] in *. rewrite Hout', <- Hout.
    destruct out; reflexivity.
  - now rewrite !(mapToKpiStateOrNull_insufficient _ _ _ _ _ _ _ Hn).
Qed.

(** X12.  Mapping the same arrays a second time, on the rows as the first
    call left them, has the outcome of the first call: the group fields
    the first call wrote change nothing. *)
Theorem mapToKpiStateOrNull_twice (config : Config) (inherited : string -> bool)
    (this : Mapper) (jsonArrays : list (list nat)) (h : Heap) :
  snd (mapToKpiStateOrNull config inherited this jsonArrays
         (fst (mapToKpiStateOrNull config inherited this jsonArrays h)))
  = snd (mapToKpiStateOrNull config inherited this jsonArrays h).
Proof.
  apply mapToKpiStateOrNull_reached.
  apply (mapToKpiStateOrNull_heap config inherited this jsonArrays h).
Qed.

(** ** The orchestration, for any concrete mapper *)

Lemma alloc_refs (rows : list Row) :
  forall (h : Heap) (next : nat),
  snd (alloc rows h next) = seq next (List.length rows).
Proof.
  induction rows as [| row rows IH]; intros h next; simpl; [reflexivity |].
  specialize (IH (assign h next row) (S next)).
  destruct (alloc rows (assign h next row) (S next)) as [[h1 next1] refs1].
  simpl in *. now rewrite IH.
Qed.

Section Orchestration.

Variable Query : string -> Outcome (list Row).

Lemma queryAll_answered (answer : string -> list Row) (sqls : list string) :
  forall (acc : list (list nat)) (h : Heap) (next : nat),
  (forall sql, In sql sqls -> Query sql = Normal (answer sql)) ->
  exists h' next' arrays,
    KpiMapper.queryAll Query sqls acc h next = (h', next', Normal (acc ++ arrays))
    /\ map (map h') arrays = map answer sqls
    /\ Forall (Forall (fun r => (next <= r < next')%nat)) arrays
    /\ NoDup (List.concat arrays)
    /\ (next <= next')%nat
    /\ (forall r, (r < next)%nat -> h' r = h r).
Proof.
  induction sqls as [| sql rest IH]; intros acc h next Hans; simpl.
  - exists h, next, []. rewrite app_nil_r. simpl.
    repeat split; auto; constructor.
  - rewrite (Hans sql (or_introl eq_refl)).
    pose proof (alloc_refs (answer sql) h next) as Hrefs.
    destruct (alloc (answer sql) h next) as [[h1 next1] refs] eqn:Halloc.
    simpl in Hrefs.
    destruct (alloc_spec _ _ _ _ _ _ Halloc) as [Hnext [Hmap [Hrange Hframe]]].
    destruct (IH (acc ++ [refs]) h1 next1 (fun s Hs => Hans s (or_intror Hs)))
      as [h' [next' [arrays [Hq [Hrows [Hfresh [Hnd [Hle Hkeep]]]]]]]].
    exists h', next', (refs :: arrays).
    rewrite Hq, <- app_assoc. simpl.
    split; [reflexivity |]. split; [| split; [| split; [| split]]].
    + f_equal; [| exact Hrows]. rewrite <- Hmap. apply map_ext_in.
      intros r Hr. rewrite Forall_forall in Hrange. apply Hkeep.
      apply Hrange in Hr. lia.
    + constructor.
      * eapply Forall_impl; [| exact Hrange]. simpl. intros r Hr. lia.
      * eapply Forall_impl; [| exact Hfresh]. simpl. intros a Ha.
        eapply Forall_impl; [| exact Ha]. simpl. intros r Hr. lia.
    + apply NoDup_app; [rewrite Hrefs; apply seq_NoDup | exact Hnd |].
      intros r Hr Hin. apply in_concat in Hin. destruct Hin as [a [Ha Hra]].
      rewrite Forall_forall in Hrange, Hfresh.
      apply Hrange in Hr. specialize (Hfresh a Ha).
      rewrite Forall_forall in Hfresh. apply Hfresh in Hra. lia.
    + lia.
    + intros r Hr. rewrite Hkeep by lia. now apply Hframe.
Qed.

Lemma queryAll_failure (sqls : list string) (sql : string) (rest : list string)
    (e : JsError) :
  forall (acc : list (list nat)) (h : Heap) (next : nat),
  (forall s, In s sqls -> exists rows, Query s = Normal rows) ->
  Query sql = Throw e ->
  snd (KpiMapper.queryAll Query (sqls ++ sql :: rest) acc h next) = Throw e.
Proof.
  induction sqls as [| s sqls IH]; intros acc h next Hans Hfail; simpl.
  - now rewrite Hfail.
  - destruct (Hans s (or_introl eq_refl)) as [rows Hrows]. rewrite Hrows.
    destruct (alloc rows h next) as [[h1 next1] refs].
    apply IH; [| exact Hfail]. intros s' Hs'. apply Hans. now right.
Qed.

Variable config : Config.
Variable format : moment.Moment -> string -> string.
Variable getQueryStrings : Mapper -> string -> string -> Z -> list string.
Variable mapToKpiStateOrNull :
  Mapper -> list (list nat) -> Heap -> Heap * Outcome (option IKpiState).

(** X13.  The first query that fails decides the request: when the
    queries before it are answered, its exception is the outcome, whatever
    the queries after it would give and whatever the mapping would do. *)
Theorem GetKpiStateOrNull_first_failure (this : Mapper) (from to : Z) (h : Heap)
    (next : nat) (before : list string) (sql : string) (after : list string)
    (e : JsError) :
  requests config format getQueryStrings this from to = before ++ sql :: after ->
  (forall s, In s before -> exists rows, Query s = Normal rows) ->
  Query sql = Throw e ->
  snd (snd (KpiMapper.GetKpiStateOrNull config format Query getQueryStrings
              mapToKpiStateOrNull this from to h next))
  = Throw e.
Proof.
  intros Hsqls Hbefore Hfail.
  unfold KpiMapper.GetKpiStateOrNull, KpiMapper.queryAndMap. cbn [snd].
  fold (charted config format this from to).
  change (getQueryStrings _ _ _ _) with (requests config format getQueryStrings this from to). rewrite Hsqls.
  pose proof (queryAll_failure before sql after e [] h next Hbefore Hfail) as Hq.
  destruct (KpiMapper.queryAll Query (before ++ sql :: after) [] h next)
    as [[h1 next1] out].
  cbn [snd] in Hq. subst out. reflexivity.
Qed.

(** X14.  When every query is answered, the mapping is called once, with
    the chart bounds set, on one array per query in the order of the
    queries; the arrays hold the rows the queries returned, as objects
    that are pairwise distinct and did not exist before; the result of the
    request is the result of that call. *)
Theorem GetKpiStateOrNull_answered (answer : string -> list Row)
    (this : Mapper) (from to : Z) (h : Heap) (next : nat) :
  (forall sql, In sql (requests config format getQueryStrings this from to) ->
               Query sql = Normal (answer sql)) ->
  exists h' arrays,
    map (map h') arrays
    = map answer (requests config format getQueryStrings this from to)
    /\ NoDup (List.concat arrays)
    /\ Forall (Forall (fun r => (next <= r)%nat)) arrays
    /\ (forall r, (r < next)%nat -> h' r = h r)
    /\ snd (snd (KpiMapper.GetKpiStateOrNull config format Query getQueryStrings
                   mapToKpiStateOrNull this from to h next))
       = snd (mapToKpiStateOrNull (charted config format this from to) arrays h').
Proof.
  intros Hans.
  destruct (queryAll_answered answer
              (requests config format getQueryStrings this from to) [] h next Hans)
    as [h' [next' [arrays [Hq [Hrows [Hfresh [Hnd [_ Hkeep]]]]]]]].
  exists h', arrays.
  split; [exact Hrows |]. split; [exact Hnd |]. split; [| split; [exact Hkeep |]].
  - eapply Forall_impl; [| exact Hfresh]. simpl. intros a Ha.
    eapply Forall_impl; [| exact Ha]. simpl. intros r Hr. lia.
  - unfold KpiMapper.GetKpiStateOrNull, KpiMapper.queryAndMap. cbn [snd].
    fold (charted config format this from to).
    change (getQueryStrings _ _ _ _) with (requests config format getQueryStrings this from to).
    rewrite Hq. simpl app.
    destruct (mapToKpiStateOrNull (charted config format this from to) arrays h').
    reflexivity.
Qed.

End Orchestration.

Lemma GetKpiStateOrNull_first_failure_example :
  snd (snd (KpiMapper.GetKpiStateOrNull Sample.config SampleStorage.format
              SampleStorage.QueryFailing
              (getQueryStrings Sample.config SampleStorage.GetPeriod)
              (mapToKpiStateOrNull Sample.config Sample.inherited)
              Sample.this 0 (30 * 86400000) SampleStorage.empty 0))
  = Throw (Error "connection lost").
Proof.
  apply (GetKpiStateOrNull_first_failure SampleStorage.QueryFailing Sample.config
           SampleStorage.format
           (getQueryStrings Sample.config SampleStorage.GetPeriod)
           (mapToKpiStateOrNull Sample.config Sample.inherited)
           Sample.this 0 (30 * 86400000) SampleStorage.empty 0
           [requestOverall Sample.config SampleStorage.GetPeriod SampleStorage.format
              Sample.this 0 (30 * 86400000)]
           (requestGrouped Sample.config SampleStorage.GetPeriod SampleStorage.format
              Sample.this 0 (30 * 86400000))
           []).
  - reflexivity.
  - intros s [<- | []]. exists SampleStorage.rowsOverall. vm_compute. reflexivity.
  - vm_compute. reflexivity.
Defined.

Lemma GetKpiStateOrNull_answered_example :
  exists h' arrays,
    map (map h') arrays = [SampleStorage.rowsOverall; SampleStorage.rowsGrouped]
    /\ NoDup (List.concat arrays)
    /\ snd (snd (KpiMapper.GetKpiStateOrNull Sample.config SampleStorage.format
                   SampleStorage.Query
                   (getQueryStrings Sample.config SampleStorage.GetPeriod)
                   (mapToKpiStateOrNull Sample.config Sample.inherited)
                   Sample.this 0 (30 * 86400000) SampleStorage.empty 0))
       = snd (mapToKpiStateOrNull Sample.config Sample.inherited
                (charted Sample.config SampleStorage.format Sample.this
                   0 (30 * 86400000)) arrays h').
Proof.
  destruct (GetKpiStateOrNull_answered SampleStorage.Query Sample.config
              SampleStorage.format
              (getQueryStrings Sample.config SampleStorage.GetPeriod)
              (mapToKpiStateOrNull Sample.config Sample.inherited)
              (fun sql => if SampleStorage.isOverall sql
                          then SampleStorage.rowsOverall
                          else SampleStorage.rowsGrouped)
              Sample.this 0 (30 * 86400000) SampleStorage.empty 0)
    as [h' [arrays [Hrows [Hnd [_ [_ Hresult]]]]]].
  - intros sql _. unfold SampleStorage.Query.
    destruct (SampleStorage.isOverall sql); reflexivity.
  - exists h', arrays. split; [| split; [exact Hnd | exact Hresult]].
    rewrite Hrows. vm_compute. reflexivity.
Defined.

(** ** Fewer than two arrays *)

(** X15.  Called with fewer than two arrays the mapping never gives a
    payload and touches no row: a single array of fewer than 2 rows gives
    null; no array at all, or a single array of 2 or more rows, raises a
    [TypeError], the length of a missing array being read. *)
Theorem mapToKpiStateOrNull_fewer_than_two_arrays (config : Config)
    (inherited : string -> bool) (this : Mapper) (jsonArrays : list (list nat))
    (h : Heap) :
  (List.length jsonArrays < 2)%nat ->
  let result := mapToKpiStateOrNull config inherited this jsonArrays h in
  fst result = h
  /\ (forall p, snd result <> Normal (Some p))
  /\ (snd result = Normal None <->
      exists results, jsonArrays = [results] /\ (List.length results < 2)%nat)
  /\ (snd result = Throw TypeError <->
      jsonArrays = [] \/
      exists results, jsonArrays = [results] /\ (2 <= List.length results)%nat).
Proof.
  intros Hfew result. subst result.
  destruct jsonArrays as [| results [| results' rest]]; [| | simpl in Hfew; lia].
  - simpl. split; [reflexivity |]. split; [discriminate |]. split.
    + split; [discriminate | intros [results [Heq _]]; discriminate].
    + split; [now left | reflexivity].
  - unfold mapToKpiStateOrNull.
    destruct (Nat.ltb_spec (List.length results) 2) as [Hshort | Hlong]; simpl.
    + split; [reflexivity |]. split; [discriminate |]. split.
      * split; [| reflexivity]. intros _. now exists results.
      * split; [discriminate |].
        intros [Heq | [results' [Heq Hlen]]]; [discriminate |].
        injection Heq as <-. lia.
    + split; [reflexivity |]. split; [discriminate |]. split.
      * split; [discriminate |].
        intros [results' [Heq Hlen]]. injection Heq as <-. lia.
      * split; [| reflexivity]. intros _. right. now exists results.
Qed.

Lemma mapToKpiStateOrNull_fewer_than_two_arrays_example :
  snd (mapToKpiStateOrNull Sample.config Sample.inherited Sample.this
         [[0; 1]%nat] Sample.heapA) = Throw TypeError.
Proof.
  apply (mapToKpiStateOrNull_fewer_than_two_arrays Sample.config Sample.inherited
           Sample.this [[0; 1]%nat] Sample.heapA).
  - simpl. lia.
  - right. exists [0; 1]%nat. split; [reflexivity | simpl; lia].
Defined.

(** ** The group field after a call *)

Lemma groupName_not_empty (row : Row) : groupName row <> "".
Proof.
  unfold groupName. destruct (GROUP row) as [g |]; [| discriminate].
  destruct (String.eqb_spec g ""); [discriminate | assumption].
Qed.

Lemma resolveGroup_sets (r : nat) (h : Heap) :
  GROUP (fst (resolveGroup r h) r) = Some (groupName (h r)).
Proof.
  unfold resolveGroup, groupName.
  destruct (GROUP (h r)) as [g |] eqn:Hg;
    [destruct (String.eqb_spec g "") |]; simpl; try exact Hg;
    unfold assign; now rewrite Nat.eqb_refl.
Qed.

Lemma groupDefaulted_keeps (a b : Row) (g : string) :
  groupDefaulted a b -> GROUP a = Some g -> g <> "" -> GROUP b = Some g.
Proof.
  intros [_ [_ [Hsame | [[Hf | Hf] _]]]] Hg Hne; congruence.
Qed.

Lemma mapResults_sets (inherited : string -> bool) (results : list nat) :
  forall (h : Heap) (o : TraceLines) (h' : Heap) (o' : TraceLines),
  mapResults inherited results h o = (h', Normal o') ->
  forall r, In r results -> GROUP (h' r) = Some (groupName (h r)).
Proof.
  induction results as [| r0 rest IH]; intros h o h' o' Hrun r Hr; [contradiction |].
  simpl in Hrun.
  pose proof (resolveGroup_sets r0 h) as Hset.
  pose proof (resolveGroup_heap r0 h) as Hheap.
  unfold mapResult in Hrun.
  destruct (resolveGroup r0 h) as [h1 g]. simpl in Hset, Hheap.
  destruct (addPoint inherited g (DATE (h1 r0)) (AVG_BUILD_TIME (h1 r0)) o)
    as [o1 | e]; [| discriminate].
  destruct (mapResults_spec inherited h1 rest h1 o1
              (fun r' => groupDefaulted_refl (h1 r'))) as [_ [Hreached _]].
  rewrite Hrun in Hreached. simpl in Hreached.
  destruct (in_dec Nat.eq_dec r rest) as [Hin | Hnotin].
  - rewrite (IH _ _ _ _ Hrun r Hin). f_equal.
    apply groupDefaulted_groupName, Hheap.
  - destruct Hr as [<- | Hr]; [| contradiction].
    eapply groupDefaulted_keeps; [apply Hreached | exact Hset |].
    apply groupName_not_empty.
Qed.

Lemma mapArrays_sets (inherited : string -> bool) (jsonArrays : list (list nat)) :
  forall (h : Heap) (o : TraceLines) (h' : Heap) (o' : TraceLines),
  mapArrays inherited jsonArrays h o = (h', Normal o') ->
  forall r, In r (processed jsonArrays) -> GROUP (h' r) = Some (groupName (h r)).
Proof.
  induction jsonArrays as [| results rest IH]; intros h o h' o' Hrun r Hr;
    [contradiction |].
  simpl in Hrun. unfold processed in Hr. simpl in Hr. fold (processed rest) in Hr.
  destruct (List.length results <? 2)%nat; simpl in Hr;
    [exact (IH _ _ _ _ Hrun r Hr) |].
  destruct (mapResults_spec inherited h results h o
              (fun r' => groupDefaulted_refl (h r'))) as [_ [Hreached1 _]].
  destruct (mapResults inherited results h o) as [h1 [o1 | e]] eqn:Hfirst;
    [| discriminate].
  simpl in Hreached1.
  destruct (mapArrays_spec inherited h1 rest h1 o1
              (fun r' => groupDefaulted_refl (h1 r'))) as [_ [Hreached _]].
  rewrite Hrun in Hreached. simpl in Hreached.
  destruct (in_dec Nat.eq_dec r (processed rest)) as [Hin | Hnotin].
  - rewrite (IH _ _ _ _ Hrun r Hin). f_equal.
    apply groupDefaulted_groupName, Hreached1.
  - apply in_app_iff in Hr. destruct Hr as [Hr | Hr]; [| contradiction].
    eapply groupDefaulted_keeps; [apply Hreached | |].
    + exact (mapResults_sets inherited results h o h1 o1 Hfirst r Hr).
    + apply groupName_not_empty.
Qed.

(** X16.  After a call that returns a payload, every row of an array of
    two or more rows carries in its group field the name it resolved to,
    which is the name of the trace line holding its point. *)
Theorem mapToKpiStateOrNull_group_fields (config : Config) (inherited : string -> bool)
    (this : Mapper) (jsonArrays : list (list nat)) (h : Heap) (p : IKpiState) :
  snd (mapToKpiStateOrNull config inherited this jsonArrays h) = Normal (Some p) ->
  forall r, In r (processed jsonArrays) ->
    GROUP (fst (mapToKpiStateOrNull config inherited this jsonArrays h) r)
    = Some (groupName (h r))
    /\ In (Object (traceOf (groupName (h r)) (map h (processed jsonArrays)))) (data p).
Proof.
  intros Hp r Hr.
  destruct (mapToKpiStateOrNull_payload config inherited this jsonArrays h p Hp)
    as [[overall [grouped [rest [-> Hs]]]] [_ Hdata]].
  split.
  - rewrite (mapToKpiStateOrNull_sufficient _ _ _ _ _ _ _ Hs) in *.
    destruct (mapArrays inherited (overall :: grouped :: rest) h [])
      as [h1 [traceLines | e]] eqn:Hrun; [| discriminate].
    cbn [fst]. exact (mapArrays_sets inherited _ h [] h1 traceLines Hrun r Hr).
  - rewrite Hdata. simpl data. apply In_seriesOf.
    apply in_map, in_map, Hr.
Qed.

Lemma mapToKpiStateOrNull_group_fields_example :
  GROUP (fst (mapToKpiStateOrNull Sample.config Sample.inherited Sample.this
                Sample.jsonArrays Sample.heapA) 5%nat)
  = Some "Overall".
Proof.
  apply (mapToKpiStateOrNull_group_fields Sample.config Sample.inherited Sample.this
           Sample.jsonArrays Sample.heapA _ heapA_payload 5%nat).
  simpl. tauto.
Defined.

(** ** What the date functions print *)

(** X17.  On a malformed result [GetStartDate] and [GetEndDate] raise an
    [Error] object of their own (never a [TypeError]), whose message names
    the mapper's title, and print exactly one line: that message followed
    by the notice that the error has been logged. *)
Theorem date_functions_console (Query : string -> Outcome (list Row))
    (startQuery endQuery : string) (this : Mapper) (w : World) :
  (forall results,
      Query startQuery = Normal results -> malformed results ->
      exists rest,
        let msg := String.concat "" ["kpi "; Title this; ": start date query "; rest] in
        KpiMapper.GetStartDate Query startQuery this w
        = ({| console := console w
                         ++ [String.concat "" [msg; " Error has been logged."]];
              logged := logged w
                        ++ [(Error msg, String.concat "" ["query: "; startQuery])] |},
           Throw (Error msg)))
  /\ (forall results,
      Query endQuery = Normal results -> malformed results ->
      exists rest,
        let msg := String.concat "" ["kpi "; Title this; ": end date query "; rest] in
        KpiMapper.GetEndDate Query endQuery this w
        = ({| console := console w
                         ++ [String.concat "" [msg; " Error has been logged."]];
              logged := logged w
                        ++ [(Error msg, String.concat "" ["query: "; endQuery])] |},
           Throw (Error msg))).
Proof.
  split; intros results Hq Hbad.
  - unfold KpiMapper.GetStartDate. rewrite Hq.
    destruct (Nat.eqb_spec (List.length results) 1) as [Hone | Hnot]; simpl negb; cbv iota.
    + destruct Hbad as [Hlen | [row [-> Hnone]]]; [contradiction |].
      rewrite Hnone.
      exists (String.concat "" ["must return a "; dquote; "DATE"; dquote; " column."]).
      vm_compute. reflexivity.
    + exists "must return only 1 result.".
      vm_compute. reflexivity.
  - unfold KpiMapper.GetEndDate. rewrite Hq.
    destruct (Nat.eqb_spec (List.length results) 1) as [Hone | Hnot]; simpl negb; cbv iota.
    + destruct Hbad as [Hlen | [row [-> Hnone]]]; [contradiction |].
      rewrite Hnone.
      exists (String.concat "" ["must return a "; dquote; "DATE"; dquote; " column."]).
      vm_compute. reflexivity.
    + exists "must return only 1 result.".
      vm_compute. reflexivity.
Qed.

Lemma date_functions_console_example :
  exists msg,
    KpiMapper.GetEndDate (fun _ => Normal []) (getEndDateQuery Sample.config)
      Sample.this (mkWorld [] [])
    = ({| console := [String.concat "" [msg; " Error has been logged."]];
          logged := [(Error msg,
                      String.concat "" ["query: "; getEndDateQuery Sample.config])] |},
       Throw (Error msg)).
Proof.
  destruct (proj2 (date_functions_console (fun _ => Normal [])
                     (getStartDateQuery Sample.config) (getEndDateQuery Sample.config)
                     Sample.this (mkWorld [] [])) [] eq_refl) as [rest Hrest].
  - left. simpl. discriminate.
  - eexists. exact Hrest.
Defined.
